(** * elevatorSimulator: the browser client [static/main.js]

    A shallow embedding of the client script and the properties of its
    poll cycle, request path, renderer and event log.

    The script is embedded as it is written: every function of [main.js]
    is a computation in a state-and-exception monad over the page (the
    eight elements the script looks up by id), the module variable
    [latestState] and the wall clock.  JavaScript values are untyped, as
    the script receives them from [res.json()]; property reads, truthiness,
    [||], [??], string conversion, array iteration and spreading follow the
    language (and may raise a [TypeError] exactly where the language
    does). *)

From Stdlib Require Import ZArith List String Ascii Bool Lia Sorted.
From Stdlib Require Decimal DecimalString DecimalZ.
Import ListNotations.
Local Open Scope string_scope.
Local Open Scope Z_scope.
Set Warnings "-register-all".

(** ** JavaScript values *)

(** The values [JSON.parse] can produce, and [undefined].  Numbers are the
    integer-valued ones (floor numbers and counts); strings are taken as
    sequences of ASCII characters.  An object is its list of own
    properties, the first binding of a key being the property's value. *)
Inductive JSValue : Type :=
| JUndefined
| JNull
| JBool (b : bool)
| JNum (n : Z)
| JStr (s : string)
| JArr (elems : list JSValue)
| JObj (props : list (string * JSValue)).

(** An exception object: what [String(err)] needs of it. *)
Record Exn : Type := mkExn { exn_name : string; exn_message : string }.

(** The faults the language itself raises in this script. *)
Inductive Fault : Type :=
| ReadOfNullish (base : JSValue) (key : string)   (* x.key with x null or undefined *)
| NotAFunction (key : string)                     (* x.key(...) with x.key not callable *)
| NotIterable (v : JSValue)                       (* [...v] with v not iterable *)
| NoPrimitive.                                    (* string conversion of an object failed *)

(** The message text of an engine-raised [TypeError] is not fixed by the
    language; it is what the hosting engine says. *)
Class Engine : Type := { type_error_message : Fault -> string }.

(** The wording of one engine, to run the model on concrete inputs. *)
Definition v8_message (f : Fault) : string :=
  match f with
  | ReadOfNullish JNull k => "Cannot read properties of null (reading '" ++ k ++ "')"
  | ReadOfNullish _ k => "Cannot read properties of undefined (reading '" ++ k ++ "')"
  | NotAFunction k => k ++ " is not a function"
  | NotIterable _ => "object is not iterable"
  | NoPrimitive => "Cannot convert object to primitive value"
  end.

Definition v8 : Engine := {| type_error_message := v8_message |}.

(** [new Error(msg)] for a string [msg]. *)
Definition Error (msg : string) : Exn := mkExn "Error" msg.

Definition TypeError `{Engine} (f : Fault) : Exn :=
  mkExn "TypeError" (type_error_message f).

(** [Error.prototype.toString]: what [`${err}`] yields. *)
Definition exn_toString (e : Exn) : string :=
  if String.eqb (exn_name e) "" then exn_message e
  else if String.eqb (exn_message e) "" then exn_name e
  else exn_name e ++ ": " ++ exn_message e.

(** ToBoolean. *)
Definition truthy (v : JSValue) : bool :=
  match v with
  | JUndefined | JNull => false
  | JBool b => b
  | JNum n => negb (n =? 0)
  | JStr s => negb (String.eqb s "")
  | JArr _ | JObj _ => true
  end.

Definition nullish (v : JSValue) : bool :=
  match v with
  | JUndefined | JNull => true
  | _ => false
  end.

(** [a || b] and [a ?? b] (both operands here are already values). *)
Definition js_or (a b : JSValue) : JSValue := if truthy a then a else b.
Definition js_coalesce (a b : JSValue) : JSValue := if nullish a then b else a.

Fixpoint lookup (k : string) (ps : list (string * JSValue)) : option JSValue :=
  match ps with
  | [] => None
  | (k', v) :: ps' => if String.eqb k k' then Some v else lookup k ps'
  end.

(** Number::toString for an integer. *)
Definition number_toString (n : Z) : string := DecimalString.NilZero.string_of_int (Z.to_int n).

(** [===] against a string literal, which is also what
    [Array.prototype.includes] compares with. *)
Definition strict_eq_str (v : JSValue) (s : string) : bool :=
  match v with
  | JStr t => String.eqb t s
  | _ => false
  end.

Definition includes (l : list string) (v : JSValue) : bool :=
  existsb (strict_eq_str v) l.

Section Language.
Context `{Engine}.

(** ToString.  An array joins its elements with commas, [null] and
    [undefined] elements giving the empty string; an object gives
    ["[object Object]"], unless it has an own property [toString], which
    (coming from JSON) is not callable and makes the conversion fail. *)
Fixpoint toString (v : JSValue) : Exn + string :=
  match v with
  | JUndefined => inr "undefined"
  | JNull => inr "null"
  | JBool b => inr (if b then "true" else "false")
  | JNum n => inr (number_toString n)
  | JStr s => inr s
  | JArr l =>
      (fix join (l : list JSValue) : Exn + string :=
         match l with
         | [] => inr ""
         | x :: l' =>
             match (if nullish x then inr "" else toString x) with
             | inl e => inl e
             | inr s =>
                 match l' with
                 | [] => inr s
                 | _ => match join l' with
                        | inl e => inl e
                        | inr r => inr (s ++ "," ++ r)
                        end
                 end
             end
         end) l
  | JObj ps =>
      match lookup "toString" ps with
      | Some _ => inl (TypeError NoPrimitive)
      | None => inr "[object Object]"
      end
  end.

(** [v.k], for the keys the script reads (none of them is inherited from a
    prototype, but [length] of arrays and strings). *)
Definition get (v : JSValue) (k : string) : Exn + JSValue :=
  match v with
  | JUndefined | JNull => inl (TypeError (ReadOfNullish v k))
  | JObj ps => inr (match lookup k ps with Some x => x | None => JUndefined end)
  | JArr l => inr (if String.eqb k "length" then JNum (Z.of_nat (List.length l)) else JUndefined)
  | JStr s => inr (if String.eqb k "length" then JNum (Z.of_nat (String.length s)) else JUndefined)
  | JBool _ | JNum _ => inr JUndefined
  end.

(** The string an assignment [el.textContent = v] stores: the attribute is
    a nullable string, so [null] and [undefined] store the empty text. *)
Definition text_of (v : JSValue) : Exn + string :=
  if nullish v then inr "" else toString v.

(** [[...v]]: the elements of an array, the characters of a string. *)
Definition spread (v : JSValue) : Exn + list JSValue :=
  match v with
  | JArr l => inr l
  | JStr s => inr (map (fun c => JStr (String c EmptyString)) (list_ascii_of_string s))
  | _ => inl (TypeError (NotIterable v))
  end.

(** [new Error(v)]: the message is [v] converted to a string. *)
Definition new_Error (v : JSValue) : Exn + Exn :=
  match v with
  | JUndefined => inr (Error "")
  | _ => match toString v with
         | inl e => inl e
         | inr s => inr (Error s)
         end
  end.

End Language.

(** ** The page *)

(** An element the script creates: a leaf with text. [onclick] holds the
    floor the handler [() => requestFloor(info.floor)] submits. *)
Record Element : Type := mkElement {
  tagName : string;
  classList : list string;
  textContent : string;
  disabled : bool;
  onclick : option JSValue
}.

(** [document.createElement(tag)]. *)
Definition createElement (tag : string) : Element :=
  mkElement tag [] "" false None.

Definition set_className (c : string) (e : Element) : Element :=
  mkElement (tagName e) [c] (textContent e) (disabled e) (onclick e).

Definition set_textContent (t : string) (e : Element) : Element :=
  mkElement (tagName e) (classList e) t (disabled e) (onclick e).

Definition set_onclick (f : JSValue) (e : Element) : Element :=
  mkElement (tagName e) (classList e) (textContent e) (disabled e) (Some f).

Definition set_disabled (b : bool) (e : Element) : Element :=
  mkElement (tagName e) (classList e) (textContent e) b (onclick e).

Definition has_class (c : string) (e : Element) : bool :=
  existsb (String.eqb c) (classList e).

(** [e.classList.add(c)]. *)
Definition classList_add (c : string) (e : Element) : Element :=
  if has_class c e then e
  else mkElement (tagName e) (classList e ++ [c]) (textContent e) (disabled e) (onclick e).

(** The eight elements of lines 1-8: the text of the five status fields and
    the children of the three containers, in document order. *)
Record Page : Type := mkPage {
  floorsEl : list Element;
  dirEl : string;
  currentEl : string;
  targetEl : string;
  queueSizeEl : string;
  queueChipsEl : list Element;
  floorCountEl : string;
  logEl : list Element
}.

(** The state the script runs on: [latestState] (line 10), the page, and
    the wall clock as the sequence of its future readings. *)
Record World : Type := mkWorld {
  latestState : JSValue;
  page : Page;
  clock : nat -> string
}.

(** ** Computations *)

(** A computation changes the world and returns or throws; what it changed
    before throwing stays changed. *)
Definition M (A : Type) : Type := World -> (Exn + A) * World.

Definition ret {A} (a : A) : M A := fun w => (inr a, w).

Definition throw {A} (e : Exn) : M A := fun w => (inl e, w).

Definition bind {A B} (m : M A) (k : A -> M B) : M B :=
  fun w =>
    match m w with
    | (inl e, w') => (inl e, w')
    | (inr a, w') => k a w'
    end.

(** [try { body } catch (err) { handler }]. *)
Definition try_catch {A} (body : M A) (handler : Exn -> M A) : M A :=
  fun w =>
    match body w with
    | (inl e, w') => handler e w'
    | (inr a, w') => (inr a, w')
    end.

(** The outcome of an awaited promise, or of a pure step that may throw. *)
Definition lift {A} (r : Exn + A) : M A := fun w => (r, w).

Declare Scope js_scope.
Delimit Scope js_scope with js.
Notation "x <- c1 ;; c2" := (bind c1 (fun x => c2))
  (at level 100, c1 at next level, right associativity) : js_scope.
Notation "c1 ;; c2" := (bind c1 (fun _ => c2))
  (at level 100, right associativity) : js_scope.
Local Open Scope js_scope.

Definition modify_page (f : Page -> Page) : M unit :=
  fun w => (inr tt, mkWorld (latestState w) (f (page w)) (clock w)).

Definition get_page : M Page := fun w => (inr (page w), w).

Definition get_latestState : M JSValue := fun w => (inr (latestState w), w).

Definition set_latestState (v : JSValue) : M unit :=
  fun w => (inr tt, mkWorld v (page w) (clock w)).

(** [new Date().toLocaleTimeString()]: the next reading of the clock. *)
Definition Date_toLocaleTimeString : M string :=
  fun w => (inr (clock w 0%nat),
            mkWorld (latestState w) (page w) (fun n => clock w (S n))).

(** [arr.forEach(f)] over the elements of an array. *)
Fixpoint forEach {A} (f : A -> M unit) (l : list A) : M unit :=
  match l with
  | [] => ret tt
  | x :: l' => f x ;; forEach f l'
  end.

(** Assignments to the page. *)
Definition with_floorsEl (v : list Element) (p : Page) : Page :=
  mkPage v (dirEl p) (currentEl p) (targetEl p) (queueSizeEl p)
         (queueChipsEl p) (floorCountEl p) (logEl p).
Definition with_dirEl (v : string) (p : Page) : Page :=
  mkPage (floorsEl p) v (currentEl p) (targetEl p) (queueSizeEl p)
         (queueChipsEl p) (floorCountEl p) (logEl p).
Definition with_currentEl (v : string) (p : Page) : Page :=
  mkPage (floorsEl p) (dirEl p) v (targetEl p) (queueSizeEl p)
         (queueChipsEl p) (floorCountEl p) (logEl p).
Definition with_targetEl (v : string) (p : Page) : Page :=
  mkPage (floorsEl p) (dirEl p) (currentEl p) v (queueSizeEl p)
         (queueChipsEl p) (floorCountEl p) (logEl p).
Definition with_queueSizeEl (v : string) (p : Page) : Page :=
  mkPage (floorsEl p) (dirEl p) (currentEl p) (targetEl p) v
         (queueChipsEl p) (floorCountEl p) (logEl p).
Definition with_queueChipsEl (v : list Element) (p : Page) : Page :=
  mkPage (floorsEl p) (dirEl p) (currentEl p) (targetEl p) (queueSizeEl p)
         v (floorCountEl p) (logEl p).
Definition with_floorCountEl (v : string) (p : Page) : Page :=
  mkPage (floorsEl p) (dirEl p) (currentEl p) (targetEl p) (queueSizeEl p)
         (queueChipsEl p) v (logEl p).
Definition with_logEl (v : list Element) (p : Page) : Page :=
  mkPage (floorsEl p) (dirEl p) (currentEl p) (targetEl p) (queueSizeEl p)
         (queueChipsEl p) (floorCountEl p) v.

(** ** The network *)

(** A [Response] as the script uses it: [res.ok], [res.statusText], and what
    awaiting [res.text()] and [res.json()] gives (a malformed body makes
    [res.json()] reject). *)
Record Response : Type := mkResponse {
  res_ok : bool;
  res_statusText : string;
  res_text : Exn + string;
  res_json : Exn + JSValue
}.

(** What awaiting [fetch(...)] gives. *)
Inductive FetchResult : Type :=
| Rejected (e : Exn)
| Resolved (res : Response).

Definition await_fetch (net : FetchResult) : M Response :=
  match net with
  | Rejected e => throw e
  | Resolved res => ret res
  end.

(** ** The script *)

(** [logEl.querySelectorAll('.' ++ c)]: the matching children, each named
    by its position among the children. *)
Fixpoint querySelectorAll_from (i : nat) (c : string) (children : list Element) : list nat :=
  match children with
  | [] => []
  | e :: rest =>
      if has_class c e then i :: querySelectorAll_from (S i) c rest
      else querySelectorAll_from (S i) c rest
  end.

Definition querySelectorAll (c : string) (children : list Element) : list nat :=
  querySelectorAll_from 0 c children.

(** [node.remove()] for the child at position [i]. *)
Definition remove_child (i : nat) (children : list Element) : list Element :=
  firstn i children ++ skipn (S i) children.

Section Script.
Context `{Engine}.

(** Lines 12-19. *)
Definition log (msg : JSValue) : M unit :=
  let p := createElement "p" in
  let p := set_className "log-line" p in
  now <- Date_toLocaleTimeString ;;
  s <- lift (toString msg) ;;
  let p := set_textContent ("[" ++ now ++ "] " ++ s) p in
  modify_page (fun pg => with_logEl (p :: logEl pg) pg) ;;
  pg <- get_page ;;
  let lines := querySelectorAll "log-line" (logEl pg) in
  if (80 <? List.length lines)%nat
  then modify_page (fun pg =>
         with_logEl (remove_child (nth (List.length lines - 1) lines 0%nat) (logEl pg)) pg)
  else ret tt.

(** Lines 58-63: the callback of [state.queue.forEach]. *)
Definition render_chip (f : JSValue) : M unit :=
  let chip := createElement "div" in
  let chip := set_className "chip" chip in
  s <- lift (toString f) ;;
  let chip := set_textContent ("Queued: " ++ s) chip in
  modify_page (fun pg => with_queueChipsEl (queueChipsEl pg ++ [chip]) pg).

Definition disableStates : list string := ["Queued"; "Moving"; "Current"].

(** Lines 67-78: the callback of [[...state.floors].reverse().forEach]. *)
Definition render_floor (info : JSValue) : M unit :=
  let btn := createElement "button" in
  let btn := set_className "floor" btn in
  fl <- lift (get info "floor") ;;
  t <- lift (text_of fl) ;;
  let btn := set_textContent t btn in
  let btn := set_onclick fl btn in
  st <- lift (get info "state") ;;
  let btn := if strict_eq_str st "Current" then classList_add "state-current" btn else btn in
  let btn := if strict_eq_str st "Moving" then classList_add "state-moving" btn else btn in
  let btn := if strict_eq_str st "Queued" then classList_add "state-queued" btn else btn in
  let btn := if includes disableStates st then set_disabled true btn else btn in
  modify_page (fun pg => with_floorsEl (floorsEl pg ++ [btn]) pg).

(** [v.forEach(f)]: only an array has the method. *)
Definition call_forEach (v : JSValue) (f : JSValue -> M unit) : M unit :=
  match v with
  | JArr l => forEach f l
  | JUndefined | JNull => throw (TypeError (ReadOfNullish v "forEach"))
  | _ => throw (TypeError (NotAFunction "forEach"))
  end.

(** Lines 49-79. *)
Definition renderState (state : JSValue) : M unit :=
  if negb (truthy state) then ret tt else
  direction <- lift (get state "direction") ;;
  s <- lift (toString direction) ;;
  modify_page (with_dirEl ("Direction: " ++ s)) ;;
  currentFloor <- lift (get state "currentFloor") ;;
  t <- lift (text_of currentFloor) ;;
  modify_page (with_currentEl t) ;;
  activeTarget <- lift (get state "activeTarget") ;;
  t <- lift (text_of (js_coalesce activeTarget (JStr "-"))) ;;
  modify_page (with_targetEl t) ;;
  queue <- lift (get state "queue") ;;
  len <- lift (get queue "length") ;;
  t <- lift (text_of len) ;;
  modify_page (with_queueSizeEl t) ;;
  numFloors <- lift (get state "numFloors") ;;
  s <- lift (toString numFloors) ;;
  modify_page (with_floorCountEl (s ++ " floors")) ;;
  modify_page (with_queueChipsEl []) ;;
  call_forEach queue render_chip ;;
  modify_page (with_floorsEl []) ;;
  floors <- lift (get state "floors") ;;
  infos <- lift (spread floors) ;;
  forEach render_floor (List.rev infos).

(** Lines 21-31, from the point where [fetch('/state')] has settled with
    [net].  The function touches the page and [latestState] only after its
    last [await], in one uninterrupted run, so it acts on the world as it is
    at that moment. *)
Definition fetchState (net : FetchResult) : M unit :=
  try_catch
    (res <- await_fetch net ;;
     (if negb (res_ok res)
      then body <- lift (res_text res) ;; throw (Error body)
      else ret tt) ;;
     data <- lift (res_json res) ;;
     set_latestState data ;;
     renderState data)
    (fun err => log (JStr ("State error: " ++ exn_toString err))).

(** Lines 33-47, from the point where [fetch('/request', ...)] has settled
    with [net]; as for [fetchState], all effects follow the last [await]. *)
Definition requestFloor (floor : JSValue) (net : FetchResult) : M unit :=
  try_catch
    (res <- await_fetch net ;;
     data <- lift (res_json res) ;;
     (if negb (res_ok res)
      then detail <- lift (get data "detail") ;;
           err <- lift (new_Error (js_or detail (JStr (res_statusText res)))) ;;
           throw err
      else ret tt) ;;
     message <- lift (get data "message") ;;
     (if truthy message then log message
      else s <- lift (toString floor) ;; log (JStr ("Requested floor " ++ s))) ;;
     st <- lift (get data "state") ;;
     latest <- get_latestState ;;
     renderState (js_or st latest))
    (fun err => log (JStr ("Request error: " ++ exn_toString err))).

End Script.

(** ** Snapshots *)

(** Modelled from the spec: the snapshot type of the server, which is not
    part of the client's source (section 3, data model).  The script fixes
    the property names and the tags ['Current'], ['Moving'] and ['Queued'];
    the tag of an idle floor and the direction names are the
    specification's. *)
Inductive FloorState : Type := Idle | Queued | Moving | Current.

Inductive Direction : Type := Up | Down | Stopped.

Record FloorInfo : Type := mkFloorInfo { floor : Z; state : FloorState }.

Record ElevatorState : Type := mkElevatorState {
  direction : Direction;
  currentFloor : Z;
  activeTarget : option Z;
  queue : list Z;
  numFloors : Z;
  floors : list FloorInfo
}.

Definition FloorState_name (s : FloorState) : string :=
  match s with
  | Idle => "Idle"
  | Queued => "Queued"
  | Moving => "Moving"
  | Current => "Current"
  end.

Definition Direction_name (d : Direction) : string :=
  match d with
  | Up => "Up"
  | Down => "Down"
  | Stopped => "Idle"
  end.

(** The value [res.json()] yields for a snapshot. *)
Definition FloorInfo_json (i : FloorInfo) : JSValue :=
  JObj [("floor", JNum (floor i)); ("state", JStr (FloorState_name (state i)))].

Definition ElevatorState_json (s : ElevatorState) : JSValue :=
  JObj [("direction", JStr (Direction_name (direction s)));
        ("currentFloor", JNum (currentFloor s));
        ("activeTarget", match activeTarget s with Some t => JNum t | None => JNull end);
        ("queue", JArr (map JNum (queue s)));
        ("numFloors", JNum (numFloors s));
        ("floors", JArr (map FloorInfo_json (floors s)))].

(** ** Vocabulary of the statements *)

(** The paragraph [log] builds for a text read at clock time [now]. *)
Definition log_line (now s : string) : Element :=
  set_textContent ("[" ++ now ++ "] " ++ s)
    (set_className "log-line" (createElement "p")).

(** Lines 17-18 as a function of the children of [logEl]. *)
Definition trim_log (children : list Element) : list Element :=
  let lines := querySelectorAll "log-line" children in
  if (80 <? List.length lines)%nat
  then remove_child (nth (List.length lines - 1) lines 0%nat) children
  else children.

(** The paragraphs of successive texts, oldest first, each stamped with the
    clock reading of its turn. *)
Fixpoint stamp (clk : nat -> string) (msgs : list string) : list Element :=
  match msgs with
  | [] => []
  | m :: rest => log_line (clk 0%nat) m :: stamp (fun n => clk (S n)) rest
  end.

(** Every child of the log is a log line, and there are at most 80. *)
Definition log_within_bound (w : World) : Prop :=
  forallb (has_class "log-line") (logEl (page w)) = true /\
  (List.length (logEl (page w)) <= 80)%nat.

(** A page whose fields are empty and whose containers have no children,
    and the world of line 10 on it, with a clock that reads ["t0"],
    ["t1"], ... *)
Definition blank_page : Page := mkPage [] "" "" "" "" [] "" [].

Definition ticking (n : nat) : string := "t" ++ number_toString (Z.of_nat n).

Definition startup : World := mkWorld JNull blank_page ticking.

(** The world with its page changed by [f]: what [modify_page f] leaves. *)
Definition on_page (f : Page -> Page) (w : World) : World :=
  mkWorld (latestState w) (f (page w)) (clock w).

(** The chip of lines 59-61 for a floor printed as [s]. *)
Definition chip (s : string) : Element :=
  set_textContent ("Queued: " ++ s) (set_className "chip" (createElement "div")).

(** The button of lines 68-76 for [info.floor = fl], printed as [t], and
    [info.state = st]. *)
Definition floor_button (fl : JSValue) (t : string) (st : JSValue) : Element :=
  let btn := set_onclick fl (set_textContent t (set_className "floor" (createElement "button"))) in
  let btn := if strict_eq_str st "Current" then classList_add "state-current" btn else btn in
  let btn := if strict_eq_str st "Moving" then classList_add "state-moving" btn else btn in
  let btn := if strict_eq_str st "Queued" then classList_add "state-queued" btn else btn in
  if includes disableStates st then set_disabled true btn else btn.

(** The elements a loop appends before it ends or throws, and how it ends. *)
Fixpoint build {A} (mk : A -> Exn + Element) (l : list A) : (Exn + unit) * list Element :=
  match l with
  | [] => (inr tt, [])
  | x :: rest =>
      match mk x with
      | inl e => (inl e, [])
      | inr el => (fst (build mk rest), el :: snd (build mk rest))
      end
  end.

Section Built.
Context `{Engine}.

Definition chip_of (f : JSValue) : Exn + Element :=
  match toString f with
  | inl e => inl e
  | inr s => inr (chip s)
  end.

Definition button_of (info : JSValue) : Exn + Element :=
  match get info "floor" with
  | inl e => inl e
  | inr fl =>
      match text_of fl with
      | inl e => inl e
      | inr t =>
          match get info "state" with
          | inl e => inl e
          | inr st => inr (floor_button fl t st)
          end
      end
  end.

End Built.

(** The button and the chip of a well-typed floor. *)
Definition FloorInfo_button (i : FloorInfo) : Element :=
  floor_button (JNum (floor i)) (number_toString (floor i))
               (JStr (FloorState_name (state i))).

Definition queue_chip (f : Z) : Element := chip (number_toString f).

(** The class that marks a floor state on its button, if any. *)
Definition state_class (s : FloorState) : option string :=
  match s with
  | Idle => None
  | Queued => Some "state-queued"
  | Moving => Some "state-moving"
  | Current => Some "state-current"
  end.

(** The page after rendering a well-typed snapshot: everything but the log
    is rebuilt from the snapshot. *)
Definition painted (s : ElevatorState) (pg : Page) : Page :=
  mkPage (map FloorInfo_button (List.rev (floors s)))
         ("Direction: " ++ Direction_name (direction s))
         (number_toString (currentFloor s))
         (match activeTarget s with Some t => number_toString t | None => "-" end)
         (number_toString (Z.of_nat (List.length (queue s))))
         (map queue_chip (queue s))
         (number_toString (numFloors s) ++ " floors")
         (logEl pg).

Definition is_current (i : FloorInfo) : bool :=
  match state i with
  | Current => true
  | _ => false
  end.

(** A valid snapshot: as many floors as [numFloors] says, and exactly one
    of them tagged [Current], which is [currentFloor]. *)
Definition valid_snapshot (s : ElevatorState) : Prop :=
  Z.of_nat (List.length (floors s)) = numFloors s /\
  filter is_current (floors s) = [mkFloorInfo (currentFloor s) Current].

(** The floors come in ascending order of floor number, one per floor. *)
Definition ascending_floors (s : ElevatorState) : Prop :=
  StronglySorted Z.lt (map floor (floors s)).

(** Button [b] is the button of floor [i]: labelled with its number,
    submitting it on a click, and disabled with the class of its state
    unless the floor is idle. *)
Definition button_shows (i : FloorInfo) (b : Element) : Prop :=
  tagName b = "button" /\
  textContent b = number_toString (floor i) /\
  onclick b = Some (JNum (floor i)) /\
  match state_class (state i) with
  | Some c => disabled b = true /\ classList b = ["floor"; c]
  | None => disabled b = false /\ classList b = ["floor"]
  end.

(** Chip [c] is the chip of queued floor [f]. *)
Definition chip_shows (f : Z) (c : Element) : Prop :=
  tagName c = "div" /\ classList c = ["chip"] /\
  textContent c = "Queued: " ++ number_toString f.

(** The snapshot of the first scenario of the specification. *)
Definition idle_at_3 : ElevatorState :=
  mkElevatorState Stopped 3 None [] 5
    [mkFloorInfo 1 Idle; mkFloorInfo 2 Idle; mkFloorInfo 3 Current;
     mkFloorInfo 4 Idle; mkFloorInfo 5 Idle].

(** A computation that only paints: it leaves [latestState], the clock and
    the log as they are, and what it does depends on the page alone. *)
Definition paints {A} (m : M A) : Prop :=
  forall w,
    latestState (snd (m w)) = latestState w /\
    clock (snd (m w)) = clock w /\
    logEl (page (snd (m w))) = logEl (page w) /\
    forall ls clk,
      m (mkWorld ls (page w) clk) = (fst (m w), mkWorld ls (page (snd (m w))) clk).

(** The world after one reading of the clock. *)
Definition ticked (w : World) : World :=
  mkWorld (latestState w) (page w) (fun n => clock w (S n)).

(** The world after [log] has appended the text [s]. *)
Definition logged (s : string) (w : World) : World :=
  mkWorld (latestState w)
          (with_logEl (trim_log (log_line (clock w 0%nat) s :: logEl (page w))) (page w))
          (fun n => clock w (S n)).

(** The exception lines 23-25 of [fetchState] end with, if any: the
    rejection of [fetch] (transport failure), the body of a response whose
    status is not successful (or the failure to read it), the rejection of
    [res.json()] (malformed body). *)
Definition poll_error (net : FetchResult) : option Exn :=
  match net with
  | Rejected e => Some e
  | Resolved res =>
      if negb (res_ok res)
      then Some (match res_text res with inl e => e | inr body => Error body end)
      else match res_json res with
           | inl e => Some e
           | inr _ => None
           end
  end.

(** The parsed body of a poll whose status is successful. *)
Definition poll_data (net : FetchResult) : option JSValue :=
  match net with
  | Rejected _ => None
  | Resolved res =>
      if res_ok res
      then match res_json res with
           | inl _ => None
           | inr data => Some data
           end
      else None
  end.

Section Requests.
Context `{Engine}.

(** The exception lines 35-41 of [requestFloor] end with, if any: the
    rejection of [fetch], the rejection of [res.json()], and for a status
    that is not successful the error of line 41 (or the fault of building
    it). *)
Definition request_error (net : FetchResult) : option Exn :=
  match net with
  | Rejected e => Some e
  | Resolved res =>
      match res_json res with
      | inl e => Some e
      | inr data =>
          if negb (res_ok res)
          then Some (match get data "detail" with
                     | inl e => e
                     | inr detail =>
                         match new_Error (js_or detail (JStr (res_statusText res))) with
                         | inl e => e
                         | inr err => err
                         end
                     end)
          else None
      end
  end.

(** The text line 42 logs for [data.message = msg]. *)
Definition request_log_text (floor msg : JSValue) : Exn + string :=
  if truthy msg then toString msg
  else match toString floor with
       | inl e => inl e
       | inr s => inr ("Requested floor " ++ s)
       end.

End Requests.

(** The error detail as the specification words it: the [detail] field of
    the parsed body whenever the field is present, the status text
    otherwise. *)
Definition spec_error_detail (res : Response) : JSValue :=
  match res_json res with
  | inr (JObj ps) =>
      match lookup "detail" ps with
      | Some d => d
      | None => JStr (res_statusText res)
      end
  | _ => JStr (res_statusText res)
  end.

(** Responses of the scenarios. *)
Definition ok_response (data : JSValue) : Response :=
  mkResponse true "OK" (inr "") (inr data).

Definition db_down : Response :=
  mkResponse false "Internal Server Error" (inr "db down")
             (inl (mkExn "SyntaxError" "Unexpected token 'd'")).

Definition queued_floor_4 : ElevatorState :=
  mkElevatorState Up 3 (Some 4) [4] 5
    [mkFloorInfo 1 Idle; mkFloorInfo 2 Idle; mkFloorInfo 3 Current;
     mkFloorInfo 4 Moving; mkFloorInfo 5 Idle].

(** A payload without a [queue] field. *)
Definition no_queue : JSValue :=
  JObj [("direction", JStr "Up"); ("currentFloor", JNum 2)].

(** The world once a first poll has delivered the snapshot [idle_at_3]. *)
Definition polled : World :=
  snd (@fetchState v8 (Resolved (ok_response (ElevatorState_json idle_at_3))) startup).

(** A computation whose way of ending (returning a value, or throwing) does
    not depend on the world it runs in. *)
Definition steady {A} (m : M A) : Prop :=
  forall w w', fst (m w) = fst (m w').

(** A response with status 502 whose body is not JSON, and one with status
    400 whose body is [{"detail": ""}]. *)
Definition bad_gateway : Response :=
  mkResponse false "Bad Gateway" (inr "<html>")
             (inl (mkExn "SyntaxError" "Unexpected token '<'")).

Definition empty_detail : Response :=
  mkResponse false "Bad Request" (inr "")
             (inr (JObj [("detail", JStr "")])).

Section Claimed.
Context `{Engine}.

(** The log line of a failed request as the specification words it: the
    error whose detail is [spec_error_detail]. *)
Definition logs_spec_error_detail (floor : JSValue) (res : Response) (w : World) : Prop :=
  exists s,
    toString (spec_error_detail res) = inr s /\
    hd_error (logEl (page (snd (requestFloor floor (Resolved res) w)))) =
    Some (log_line (clock w 0%nat) ("Request error: " ++ exn_toString (Error s))).

End Claimed.

(** The reply of the last scenario of the specification, and a reply to a
    request the server refuses. *)
Definition queued_reply : JSValue :=
  JObj [("message", JStr "Queued floor 4");
        ("state", ElevatorState_json queued_floor_4)].

Definition out_of_range : Response :=
  mkResponse false "Bad Request" (inr "")
             (inr (JObj [("detail", JStr "Floor 9 is out of range")])).

(** In the two worlds [w] and [w'], the computation [m] treats the field
    [F] of the page alike: it leaves it alone in both, or it leaves the same
    content in both. *)
Definition uniformly {T} (F : Page -> T) (m : M unit) (w w' : World) : Prop :=
  (F (page (snd (m w))) = F (page w) /\ F (page (snd (m w'))) = F (page w')) \/
  F (page (snd (m w))) = F (page (snd (m w'))).

(** A response with status 400 whose body is the JSON text [null]. *)
Definition null_refusal : Response :=
  mkResponse false "Bad Request" (inr "null") (inr JNull).

(** ** Clicks *)

(** What [fetch] is given at lines 35-39.  [req_payload] is the value whose
    JSON text is the body. *)
Record Request : Type := mkRequest {
  req_url : string;
  req_method : string;
  req_headers : list (string * string);
  req_payload : JSValue
}.

(** Lines 35-39: the request [requestFloor(floor)] issues, before its first
    [await]. *)
Definition request_init (floor : JSValue) : Request :=
  mkRequest "/request" "POST" [("Content-Type", "application/json")]
            (JObj [("floor", floor)]).

(** A click of the user on the [i]-th child of [floorsEl].  A disabled
    button dispatches no click; on any other child the handler of line 71,
    if the child has one, calls [requestFloor], which issues its request at
    once. *)
Definition click (i : nat) (w : World) : option Request :=
  match nth_error (floorsEl (page w)) i with
  | None => None
  | Some b => if disabled b then None else option_map request_init (onclick b)
  end.

(** ** The run of the page *)

(** Lines 81-82 start a poll at once and another every 500 ms, and every
    click on an enabled button starts a request.  Each of these calls acts
    on the world in one piece, when the last promise it awaits settles; a
    run of the page is the sequence of these settlements, in the order in
    which they happen. *)
Inductive Event : Type :=
| PollSettled (net : FetchResult)
| RequestSettled (floor : JSValue) (net : FetchResult).

Section Run.
Context `{Engine}.

Definition handle (ev : Event) : M unit :=
  match ev with
  | PollSettled net => fetchState net
  | RequestSettled floor net => requestFloor floor net
  end.

Definition session (evs : list Event) : M unit := forEach handle evs.

End Run.

(** What [latestState] holds after an event, given what it held before. *)
Definition stored (ls : JSValue) (ev : Event) : JSValue :=
  match ev with
  | PollSettled net =>
      match poll_data net with
      | Some data => data
      | None => ls
      end
  | RequestSettled _ _ => ls
  end.

(** ** Vocabulary of further statements *)

(** The rendered view: the page without its log. *)
Definition view (pg : Page) : Page := with_logEl [] pg.

Definition is_idle (i : FloorInfo) : bool :=
  match state i with
  | Idle => true
  | _ => false
  end.

(** All children of the log are log lines. *)
Definition only_log_lines (w : World) : Prop :=
  forallb (has_class "log-line") (logEl (page w)) = true.

(** A reply that confirms a request and carries the snapshot [s]. *)
Definition reply_with (m : string) (s : ElevatorState) : Response :=
  ok_response (JObj [("message", JStr m); ("state", ElevatorState_json s)]).

(** A reply without message and without state. *)
Definition bare_reply : Response := ok_response (JObj []).

(** A log that held 100 lines when the script started. *)
Definition crowded : World :=
  mkWorld JNull (with_logEl (repeat (log_line "09:00:00" "old") 100) blank_page) ticking.

(** A computation that keeps the property [P] of the world. *)
Definition preserves {A} (P : World -> Prop) (m : M A) : Prop :=
  forall w, P w -> P (snd (m w)).

(** A property of the world that does not look at the rendered view. *)
Definition blind_to_view (P : World -> Prop) : Prop :=
  forall w w',
    latestState w = latestState w' ->
    clock w = clock w' ->
    logEl (page w) = logEl (page w') ->
    P w -> P w'.

(** * Properties *)

(** ** The event log *)

Lemma querySelectorAll_from_all (c : string) (l : list Element) (i : nat) :
  forallb (has_class c) l = true ->
  querySelectorAll_from i c l = seq i (List.length l).
Proof.
  revert i; induction l as [|e l IH]; intros i Hall; simpl in *.
  - reflexivity.
  - apply andb_true_iff in Hall as [He Hl].
    rewrite He, (IH (S i) Hl). reflexivity.
Qed.

Lemma trim_log_all (l : list Element) :
  forallb (has_class "log-line") l = true ->
  (List.length l <= 81)%nat ->
  trim_log l = firstn 80 l.
Proof.
  intros Hall Hlen. unfold trim_log, querySelectorAll.
  rewrite (querySelectorAll_from_all _ _ _ Hall), length_seq.
  destruct (Nat.ltb_spec 80 (List.length l)) as [Hgt|Hle].
  - assert (Hl : List.length l = 81%nat) by lia.
    rewrite Hl. change (81 - 1)%nat with 80%nat.
    rewrite seq_nth by lia. simpl Nat.add.
    unfold remove_child.
    rewrite (skipn_all2 l) by lia. apply app_nil_r.
  - symmetry. apply firstn_all2. exact Hle.
Qed.

(** ** One append to the log *)

Lemma querySelectorAll_from_ge (c : string) (l : list Element) (i j : nat) :
  In j (querySelectorAll_from i c l) -> (i <= j)%nat.
Proof.
  revert i; induction l as [|e l IH]; intros i Hin; cbn [querySelectorAll_from] in Hin.
  - destruct Hin.
  - destruct (has_class c e).
    + destruct Hin as [<-|Hin]; [lia | apply IH in Hin; lia].
    + apply IH in Hin; lia.
Qed.

(** The paragraph just prepended is never the one line 18 removes. *)
Lemma trim_log_keeps_new (e : Element) (l : list Element) :
  has_class "log-line" e = true ->
  exists l', trim_log (e :: l) = e :: l'.
Proof.
  intros He. unfold trim_log, querySelectorAll.
  cbn [querySelectorAll_from]. rewrite He.
  set (rest := querySelectorAll_from 1 "log-line" l).
  destruct (Nat.ltb_spec 80 (List.length (0 :: rest)%nat)) as [Hgt|Hle];
    [|exists l; reflexivity].
  cbn [List.length] in *.
  destruct (List.length rest) as [|n] eqn:Hn; [lia|].
  replace (S (S n) - 1)%nat with (S n) by lia. cbn [nth].
  assert (Hin : In (nth n rest 0%nat) rest) by (apply nth_In; lia).
  apply querySelectorAll_from_ge in Hin.
  destruct (nth n rest 0%nat) as [|k]; [lia|].
  exists (remove_child k l). reflexivity.
Qed.

Section LogRun.
Context `{Engine}.

Lemma log_run (msg : JSValue) (w : World) :
  log msg w =
  match toString msg with
  | inl e => (inl e, ticked w)
  | inr s => (inr tt, logged s w)
  end.
Proof.
  unfold log, bind, lift, Date_toLocaleTimeString, modify_page, get_page.
  destruct (toString msg) as [e|s]; [reflexivity|].
  cbn [fst snd page latestState clock logEl with_logEl].
  unfold logged, trim_log. fold (log_line (clock w 0%nat) s).
  destruct (80 <? _)%nat; reflexivity.
Qed.

Lemma log_text_run (s : string) (w : World) : log (JStr s) w = (inr tt, logged s w).
Proof. rewrite log_run. reflexivity. Qed.

Lemma log_keeps_latestState (msg : JSValue) (w : World) :
  latestState (snd (log msg w)) = latestState w.
Proof. rewrite log_run. destruct (toString msg); reflexivity. Qed.

End LogRun.

(** What one appended entry changes: the log gets the new paragraph in
    front (and loses its last line when it held 80 already); every status
    field, chip and button, and [latestState], stay. *)
Lemma logged_frame (s : string) (w : World) :
  latestState (logged s w) = latestState w /\
  floorsEl (page (logged s w)) = floorsEl (page w) /\
  dirEl (page (logged s w)) = dirEl (page w) /\
  currentEl (page (logged s w)) = currentEl (page w) /\
  targetEl (page (logged s w)) = targetEl (page w) /\
  queueSizeEl (page (logged s w)) = queueSizeEl (page w) /\
  queueChipsEl (page (logged s w)) = queueChipsEl (page w) /\
  floorCountEl (page (logged s w)) = floorCountEl (page w) /\
  hd_error (logEl (page (logged s w))) = Some (log_line (clock w 0%nat) s) /\
  (log_within_bound w ->
   logEl (page (logged s w)) = firstn 80 (log_line (clock w 0%nat) s :: logEl (page w))).
Proof.
  repeat (split; [reflexivity|]). split.
  - destruct (trim_log_keeps_new (log_line (clock w 0%nat) s) (logEl (page w)))
      as [l' Hl']; [reflexivity|].
    unfold logged; cbn [page logEl with_logEl]. rewrite Hl'. reflexivity.
  - intros [Hall Hlen]. unfold logged; cbn [page logEl with_logEl].
    apply trim_log_all; [cbn [forallb]; rewrite Hall; reflexivity | cbn [List.length]; lia].
Qed.

(** ** Any number of appends *)

Section LogProperties.
Context `{Engine}.

Lemma firstn_app_firstn {A} (n : nat) (a b : list A) :
  firstn n (a ++ firstn n b) = firstn n (a ++ b).
Proof.
  rewrite !firstn_app, firstn_firstn.
  f_equal. f_equal. lia.
Qed.

Lemma forallb_firstn {A} (p : A -> bool) (n : nat) (l : list A) :
  forallb p l = true -> forallb p (firstn n l) = true.
Proof.
  revert n; induction l as [|x l IH]; intros [|n] Hall; simpl in *; try reflexivity.
  apply andb_true_iff in Hall as [Hx Hl]. rewrite Hx, (IH n Hl). reflexivity.
Qed.

Lemma log_line_is_log_line (now s : string) : has_class "log-line" (log_line now s) = true.
Proof. reflexivity. Qed.

Lemma appends_run (msgs : list string) (w : World) :
  log_within_bound w ->
  let out := forEach (fun m => log (JStr m)) msgs w in
  fst out = inr tt /\
  log_within_bound (snd out) /\
  logEl (page (snd out)) = firstn 80 (List.rev (stamp (clock w) msgs) ++ logEl (page w)).
Proof.
  revert w; induction msgs as [|m rest IH]; intros w [Hall Hlen]; cbn zeta.
  - cbn [forEach stamp List.rev app]. unfold ret; cbn [fst snd].
    repeat split; auto. symmetry; apply firstn_all2; exact Hlen.
  - set (e := log_line (clock w 0%nat) m).
    set (w1 := mkWorld (latestState w)
                 (with_logEl (firstn 80 (e :: logEl (page w))) (page w))
                 (fun n => clock w (S n))).
    assert (Hstep : forEach (fun m => log (JStr m)) (m :: rest) w =
                    forEach (fun m => log (JStr m)) rest w1).
    { cbn [forEach]. unfold bind. rewrite log_text_run. unfold logged. fold e.
      rewrite trim_log_all; [reflexivity | simpl; rewrite Hall; reflexivity | simpl; lia]. }
    rewrite Hstep.
    assert (Hb1 : log_within_bound w1).
    { split; cbn [w1 page logEl with_logEl].
      - apply forallb_firstn. simpl. rewrite Hall. reflexivity.
      - rewrite length_firstn. lia. }
    destruct (IH w1 Hb1) as (Hr & Hb & Hl).
    split; [exact Hr | split; [exact Hb |]].
    rewrite Hl. cbn [w1 page logEl with_logEl clock stamp List.rev].
    rewrite firstn_app_firstn. fold e. rewrite <- app_assoc. reflexivity.
Qed.

Lemma stamp_length (clk : nat -> string) (msgs : list string) :
  List.length (stamp clk msgs) = List.length msgs.
Proof.
  revert clk; induction msgs as [|m rest IH]; intros clk; cbn [stamp List.length].
  - reflexivity.
  - rewrite IH. reflexivity.
Qed.

(** C2.  Starting from a log within its bound (in particular an empty one),
    any sequence of appends returns normally, leaves at most 80 entries, and
    leaves exactly the 80 most recent of all entries, newest first: the new
    paragraphs in reverse order of appending, followed by the old ones.
    When 80 or more texts are appended (200, say), exactly 80 entries
    remain and all of them are among the new ones. *)
Theorem log_never_exceeds_80 (msgs : list string) (w : World) :
  log_within_bound w ->
  let out := forEach (fun m => log (JStr m)) msgs w in
  let entries := logEl (page (snd out)) in
  fst out = inr tt /\
  (List.length entries <= 80)%nat /\
  entries = firstn 80 (List.rev (stamp (clock w) msgs) ++ logEl (page w)) /\
  ((80 <= List.length msgs)%nat ->
     List.length entries = 80%nat /\
     entries = firstn 80 (List.rev (stamp (clock w) msgs))) /\
  (List.length msgs = 200%nat -> List.length entries = 80%nat).
Proof.
  intros Hb. cbn zeta.
  destruct (appends_run msgs w Hb) as (Hr & [_ Hlen] & Hl).
  assert (Hbig : (80 <= List.length msgs)%nat ->
            List.length (logEl (page (snd (forEach (fun m => log (JStr m)) msgs w)))) = 80%nat /\
            logEl (page (snd (forEach (fun m => log (JStr m)) msgs w))) =
              firstn 80 (List.rev (stamp (clock w) msgs))).
  { intros Hmany. rewrite Hl.
    assert (Hrev : List.length (List.rev (stamp (clock w) msgs)) = List.length msgs)
      by (rewrite length_rev; apply stamp_length).
    split.
    - rewrite length_firstn, length_app, Hrev. lia.
    - rewrite firstn_app, Hrev.
      replace (80 - List.length msgs)%nat with 0%nat by lia.
      rewrite firstn_O. apply app_nil_r. }
  repeat split; try assumption.
  - apply Hbig; assumption.
  - apply Hbig; assumption.
  - intros H200. apply Hbig. lia.
Qed.

End LogProperties.

Lemma log_never_exceeds_80_witness :
  let out := @forEach string (fun m => @log v8 (JStr m)) ["up"; "down"] startup in
  let entries := logEl (page (snd out)) in
  fst out = inr tt /\
  (List.length entries <= 80)%nat /\
  entries = firstn 80 (List.rev (stamp (clock startup) ["up"; "down"]) ++ logEl (page startup)) /\
  ((80 <= List.length ["up"; "down"])%nat ->
     List.length entries = 80%nat /\
     entries = firstn 80 (List.rev (stamp (clock startup) ["up"; "down"]))) /\
  (List.length ["up"; "down"] = 200%nat -> List.length entries = 80%nat).
Proof.
  apply (@log_never_exceeds_80 v8 ["up"; "down"] startup).
  split; [reflexivity | simpl; lia].
Defined.


(** ** The renderer *)

Lemma on_page_id (f : Page -> Page) (w : World) :
  (forall p, f p = p) -> on_page f w = w.
Proof.
  intros Hf. destruct w as [ls pg clk]. unfold on_page; cbn. rewrite Hf. reflexivity.
Qed.

Section RenderLoops.
Context `{Engine}.

Lemma render_chip_run (f : JSValue) (w : World) :
  render_chip f w =
  match chip_of f with
  | inl e => (inl e, w)
  | inr c => (inr tt, on_page (fun pg => with_queueChipsEl (queueChipsEl pg ++ [c]) pg) w)
  end.
Proof.
  unfold render_chip, chip_of, bind, lift, modify_page.
  destruct (toString f); reflexivity.
Qed.

Lemma forEach_render_chip (l : list JSValue) (w : World) :
  forEach render_chip l w =
  (fst (build chip_of l),
   on_page (fun pg => with_queueChipsEl (queueChipsEl pg ++ snd (build chip_of l)) pg) w).
Proof.
  revert w; induction l as [|f l IH]; intros w; cbn [forEach build].
  - unfold ret; cbn [fst snd]. f_equal. symmetry. apply on_page_id.
    intros [a b c d e g h i]; unfold with_queueChipsEl; cbn. rewrite app_nil_r. reflexivity.
  - unfold bind. rewrite render_chip_run.
    destruct (chip_of f) as [e|c]; cbn [fst snd].
    + f_equal. symmetry. apply on_page_id.
      intros [a b c d e' g h i]; unfold with_queueChipsEl; cbn. rewrite app_nil_r. reflexivity.
    + rewrite IH. f_equal.
      unfold on_page, with_queueChipsEl; cbn. rewrite <- app_assoc. reflexivity.
Qed.

Lemma render_floor_run (info : JSValue) (w : World) :
  render_floor info w =
  match button_of info with
  | inl e => (inl e, w)
  | inr b => (inr tt, on_page (fun pg => with_floorsEl (floorsEl pg ++ [b]) pg) w)
  end.
Proof.
  unfold render_floor, button_of, bind, lift, modify_page.
  destruct (get info "floor") as [e|fl]; [reflexivity|].
  destruct (text_of fl) as [e|t]; [reflexivity|].
  destruct (get info "state") as [e|st]; reflexivity.
Qed.

Lemma forEach_render_floor (l : list JSValue) (w : World) :
  forEach render_floor l w =
  (fst (build button_of l),
   on_page (fun pg => with_floorsEl (floorsEl pg ++ snd (build button_of l)) pg) w).
Proof.
  revert w; induction l as [|f l IH]; intros w; cbn [forEach build].
  - unfold ret; cbn [fst snd]. f_equal. symmetry. apply on_page_id.
    intros [a b c d e g h i]; unfold with_floorsEl; cbn. rewrite app_nil_r. reflexivity.
  - unfold bind. rewrite render_floor_run.
    destruct (button_of f) as [e|c]; cbn [fst snd].
    + f_equal. symmetry. apply on_page_id.
      intros [a b c d e' g h i]; unfold with_floorsEl; cbn. rewrite app_nil_r. reflexivity.
    + rewrite IH. f_equal.
      unfold on_page, with_floorsEl; cbn. rewrite <- app_assoc. reflexivity.
Qed.

End RenderLoops.

Ltac run :=
  cbn [bind lift ret throw modify_page fst snd page latestState clock negb].

Section Render.
Context `{Engine}.

(** C6.  Rendering an absent state ([null], as [latestState] is before the
    first successful poll, or [undefined]) returns at line 50: the world,
    and with it every status field, chip and button, is what it was. *)
Theorem renderState_absent_is_noop (w : World) :
  renderState JNull w = (inr tt, w) /\ renderState JUndefined w = (inr tt, w).
Proof. split; reflexivity. Qed.

Lemma build_chips (q : list Z) :
  build chip_of (map JNum q) = (inr tt, map queue_chip q).
Proof.
  induction q as [|f q IH]; cbn [map build].
  - reflexivity.
  - unfold chip_of at 1; cbn [toString]. rewrite IH. reflexivity.
Qed.

Lemma build_buttons (l : list FloorInfo) :
  build button_of (map FloorInfo_json l) = (inr tt, map FloorInfo_button l).
Proof.
  induction l as [|i l IH]; cbn [map build].
  - reflexivity.
  - rewrite IH. reflexivity.
Qed.

Lemma renderState_snapshot (s : ElevatorState) (w : World) :
  renderState (ElevatorState_json s) w = (inr tt, on_page (painted s) w).
Proof.
  destruct w as [ls pg clk]. destruct s as [dir cur tgt q nf fls].
  unfold renderState, ElevatorState_json.
  cbn [truthy negb direction currentFloor activeTarget queue numFloors floors].
  unfold bind, lift, modify_page.
  destruct tgt as [t|]; cbn -[forEach number_toString build];
    rewrite forEach_render_chip, build_chips; cbn -[forEach number_toString build];
    rewrite <- map_rev;
    rewrite forEach_render_floor, build_buttons; cbn -[number_toString];
    unfold on_page, painted; cbn -[number_toString];
    rewrite length_map; reflexivity.
Qed.

End Render.

(** ** Printing floor numbers *)

Lemma number_toString_inj (a b : Z) :
  number_toString a = number_toString b -> a = b.
Proof.
  unfold number_toString. intros Heq.
  assert (Hproper : forall z, Z.to_int z <> Decimal.Pos Decimal.Nil /\
                              Z.to_int z <> Decimal.Neg Decimal.Nil).
  { intros [|p|p]; cbn; split; try discriminate; intros [= Hp];
      exact (DecimalPos.Unsigned.to_uint_nonnil p Hp). }
  apply DecimalZ.to_int_inj.
  assert (Hs : Some (Z.to_int a) = Some (Z.to_int b)).
  { rewrite <- (DecimalString.NilZero.isi (Z.to_int a)) by apply Hproper.
    rewrite <- (DecimalString.NilZero.isi (Z.to_int b)) by apply Hproper.
    rewrite Heq. reflexivity. }
  congruence.
Qed.

Lemma queued_label_inj (a b : Z) :
  "Queued: " ++ number_toString a = "Queued: " ++ number_toString b -> a = b.
Proof.
  intros Heq. apply number_toString_inj.
  cbn [String.append] in Heq. congruence.
Qed.

(** ** Orderings *)

Lemma StronglySorted_snoc {A} (R : A -> A -> Prop) (l : list A) (x : A) :
  StronglySorted R l -> Forall (fun y => R y x) l -> StronglySorted R (l ++ [x]).
Proof.
  induction 1 as [|a l Hs IH Ha]; intros Hx; cbn [app].
  - constructor; constructor.
  - inversion Hx as [|? ? Hax Hlx]; subst.
    constructor; [apply IH; assumption|].
    apply Forall_app; split; [assumption | constructor; [assumption | constructor]].
Qed.

Lemma StronglySorted_rev_lt (l : list Z) :
  StronglySorted Z.lt l -> StronglySorted Z.gt (List.rev l).
Proof.
  induction 1 as [|a l Hs IH Ha]; cbn [List.rev].
  - constructor.
  - apply StronglySorted_snoc; [assumption|].
    apply Forall_rev. eapply Forall_impl; [|exact Ha].
    intros y Hy. lia.
Qed.

Lemma StronglySorted_lt_NoDup (l : list Z) :
  StronglySorted Z.lt l -> NoDup l.
Proof.
  induction 1 as [|a l Hs IH Ha]; constructor; [|assumption].
  intros Hin. rewrite Forall_forall in Ha. specialize (Ha a Hin). lia.
Qed.

Lemma NoDup_map_inj_on {A B} (f : A -> B) (l : list A) (x y : A) :
  NoDup (map f l) -> In x l -> In y l -> f x = f y -> x = y.
Proof.
  induction l as [|a l IH]; cbn [map]; intros Hnd Hx Hy Hxy; [destruct Hx|].
  inversion Hnd as [|? ? Hnotin Hnd']; subst.
  destruct Hx as [<-|Hx], Hy as [<-|Hy].
  - reflexivity.
  - exfalso; apply Hnotin. rewrite Hxy. apply in_map; assumption.
  - exfalso; apply Hnotin. rewrite <- Hxy. apply in_map; assumption.
  - apply IH; assumption.
Qed.

(** ** Buttons and chips of a snapshot *)

Lemma FloorInfo_button_shows (i : FloorInfo) : button_shows i (FloorInfo_button i).
Proof.
  destruct i as [f st]; destruct st;
    unfold button_shows, FloorInfo_button, floor_button;
    cbn -[number_toString]; repeat split; reflexivity.
Qed.

Lemma queue_chip_shows (f : Z) : chip_shows f (queue_chip f).
Proof. repeat split; reflexivity. Qed.

Lemma Forall2_map_self {A B} (P : A -> B -> Prop) (f : A -> B) (l : list A) :
  (forall a, P a (f a)) -> Forall2 P l (map f l).
Proof.
  intros HP; induction l; cbn [map]; constructor; auto.
Qed.

Lemma current_button (i : FloorInfo) :
  state i = Current ->
  disabled (FloorInfo_button i) = true /\
  has_class "state-current" (FloorInfo_button i) = true.
Proof.
  destruct i as [f st]; cbn [state]; intros ->. split; reflexivity.
Qed.

Lemma count_chips (f : Z) (q : list Z) :
  List.length (filter (fun c => String.eqb (textContent c) ("Queued: " ++ number_toString f))
                      (map queue_chip q)) =
  count_occ Z.eq_dec q f.
Proof.
  induction q as [|g q IH]; cbn [map filter count_occ]; [reflexivity|].
  change (textContent (queue_chip g)) with ("Queued: " ++ number_toString g).
  destruct (String.eqb_spec ("Queued: " ++ number_toString g) ("Queued: " ++ number_toString f)) as [Heq|Hne].
  - apply queued_label_inj in Heq. subst g.
    destruct (Z.eq_dec f f) as [_|Hn]; [|contradiction]. cbn [List.length]. rewrite IH. reflexivity.
  - destruct (Z.eq_dec g f) as [->|_]; [contradiction|]. exact IH.
Qed.

Section RenderSnapshot.
Context `{Engine}.

(** C4.  Rendering a valid snapshot (as many floors as [numFloors], exactly
    one floor tagged [Current], and that floor is [currentFloor]) returns
    normally and leaves exactly [numFloors] floor buttons, which are the
    buttons of the floors in the reverse of the server's order: each is
    labelled with its floor number; the button of a [Current], [Moving] or
    [Queued] floor is disabled and carries the class of that state; the
    button of an [Idle] floor is enabled and carries no state class.  There
    is a button labelled [currentFloor] that is disabled and tagged
    current.  With the floors in ascending order, as the server delivers
    them, the buttons run from the highest floor down and every button
    labelled [currentFloor] is the disabled, current one. *)
Theorem renderState_floor_buttons (s : ElevatorState) (w : World) :
  valid_snapshot s ->
  let out := renderState (ElevatorState_json s) w in
  let btns := floorsEl (page (snd out)) in
  fst out = inr tt /\
  Z.of_nat (List.length btns) = numFloors s /\
  Forall2 button_shows (List.rev (floors s)) btns /\
  (exists b, In b btns /\
             textContent b = number_toString (currentFloor s) /\
             disabled b = true /\ has_class "state-current" b = true) /\
  (ascending_floors s ->
     StronglySorted Z.gt (map floor (List.rev (floors s))) /\
     forall b, In b btns ->
               textContent b = number_toString (currentFloor s) ->
               disabled b = true /\ has_class "state-current" b = true).
Proof.
  intros [Hlen Hcur]. cbn zeta. rewrite renderState_snapshot.
  cbn [fst snd on_page page painted floorsEl].
  assert (Hc : In (mkFloorInfo (currentFloor s) Current) (floors s)).
  { apply (proj1 (filter_In is_current _ (floors s))). rewrite Hcur. left; reflexivity. }
  split; [reflexivity|].
  split; [rewrite length_map, length_rev; exact Hlen|].
  split; [apply Forall2_map_self, FloorInfo_button_shows|].
  split.
  - exists (FloorInfo_button (mkFloorInfo (currentFloor s) Current)).
    split; [apply in_map; apply -> in_rev; exact Hc|].
    split; [reflexivity | split; reflexivity].
  - intros Hasc. split.
    + rewrite map_rev. apply StronglySorted_rev_lt. exact Hasc.
    + intros b Hb Hlabel.
      apply in_map_iff in Hb as (i & <- & Hi). apply in_rev in Hi.
      apply current_button.
      assert (Hfloor : floor i = currentFloor s).
      { apply number_toString_inj.
        rewrite <- Hlabel. symmetry. apply (FloorInfo_button_shows i). }
      assert (Hi' : i = mkFloorInfo (currentFloor s) Current).
      { apply (NoDup_map_inj_on floor (floors s)); try assumption.
        apply StronglySorted_lt_NoDup. exact Hasc. }
      rewrite Hi'. reflexivity.
Qed.

(** C8.  Rendering a snapshot leaves one chip per element of its queue, in
    queue order, each a [div] of class [chip] with the text
    ["Queued: "] followed by that floor number; a floor that occurs [n]
    times in the queue has [n] chips. *)
Theorem renderState_queue_chips (s : ElevatorState) (w : World) :
  let chips := queueChipsEl (page (snd (renderState (ElevatorState_json s) w))) in
  chips = map queue_chip (queue s) /\
  List.length chips = List.length (queue s) /\
  Forall2 chip_shows (queue s) chips /\
  forall f : Z,
    List.length (filter (fun c => String.eqb (textContent c)
                                   ("Queued: " ++ number_toString f)) chips) =
    count_occ Z.eq_dec (queue s) f.
Proof.
  cbn zeta. rewrite renderState_snapshot.
  cbn [snd on_page page painted queueChipsEl].
  split; [reflexivity|].
  split; [apply length_map|].
  split; [apply Forall2_map_self, queue_chip_shows|].
  intros f. apply count_chips.
Qed.

End RenderSnapshot.

Lemma renderState_floor_buttons_witness :
  let out := @renderState v8 (ElevatorState_json idle_at_3) startup in
  let btns := floorsEl (page (snd out)) in
  fst out = inr tt /\
  Z.of_nat (List.length btns) = numFloors idle_at_3 /\
  Forall2 button_shows (List.rev (floors idle_at_3)) btns /\
  (exists b, In b btns /\
             textContent b = number_toString (currentFloor idle_at_3) /\
             disabled b = true /\ has_class "state-current" b = true) /\
  (ascending_floors idle_at_3 ->
     StronglySorted Z.gt (map floor (List.rev (floors idle_at_3))) /\
     forall b, In b btns ->
               textContent b = number_toString (currentFloor idle_at_3) ->
               disabled b = true /\ has_class "state-current" b = true).
Proof.
  apply (@renderState_floor_buttons v8 idle_at_3 startup).
  split; reflexivity.
Defined.

(** ** Computations that only paint *)

Lemma paints_ret {A} (a : A) : paints (ret a).
Proof. intros w; split; [|split; [|split]]; reflexivity. Qed.

Lemma paints_throw {A} (e : Exn) : paints (@throw A e).
Proof. intros w; split; [|split; [|split]]; reflexivity. Qed.

Lemma paints_lift {A} (r : Exn + A) : paints (lift r).
Proof. intros w; split; [|split; [|split]]; reflexivity. Qed.

Lemma paints_modify_page (f : Page -> Page) :
  (forall pg, logEl (f pg) = logEl pg) -> paints (modify_page f).
Proof. intros Hf w; split; [|split; [|split]]; try reflexivity. apply Hf. Qed.

Lemma paints_bind {A B} (m : M A) (k : A -> M B) :
  paints m -> (forall a, paints (k a)) -> paints (bind m k).
Proof.
  intros Hm Hk w. destruct (Hm w) as (Hls & Hclk & Hlog & Hdep).
  unfold bind. setoid_rewrite Hdep.
  destruct (m w) as [[e|a] w1]; cbn [fst snd] in *.
  - split; [|split; [|split]];
      [assumption | assumption | assumption | intros ls clk; reflexivity].
  - destruct (Hk a w1) as (Hls' & Hclk' & Hlog' & Hdep').
    split; [|split; [|split]];
      [congruence | congruence | congruence | intros ls clk; apply Hdep'].
Qed.

Lemma paints_forEach {A} (f : A -> M unit) (l : list A) :
  (forall x, paints (f x)) -> paints (forEach f l).
Proof.
  intros Hf; induction l as [|x l IH]; cbn [forEach].
  - apply paints_ret.
  - apply paints_bind; [apply Hf | intros _; exact IH].
Qed.

Ltac paint :=
  repeat (apply paints_bind; [|intro]);
  try apply paints_lift;
  try apply paints_ret;
  try apply paints_throw;
  try (apply paints_modify_page; intros [? ? ? ? ? ? ? ?]; reflexivity).

Section Paint.
Context `{Engine}.

Lemma paints_render_chip (f : JSValue) : paints (render_chip f).
Proof. unfold render_chip. paint. Qed.

Lemma paints_render_floor (info : JSValue) : paints (render_floor info).
Proof. unfold render_floor. paint. Qed.

Lemma paints_call_forEach (v : JSValue) (f : JSValue -> M unit) :
  (forall x, paints (f x)) -> paints (call_forEach v f).
Proof.
  intros Hf. destruct v; cbn [call_forEach]; try apply paints_throw.
  apply paints_forEach. exact Hf.
Qed.

Lemma paints_renderState (v : JSValue) : paints (renderState v).
Proof.
  unfold renderState. destruct (negb (truthy v)); [apply paints_ret|].
  paint.
  - apply paints_call_forEach, paints_render_chip.
  - apply paints_forEach, paints_render_floor.
Qed.

End Paint.

(** ** The poll cycle *)

Section Poll.
Context `{Engine}.

Lemma fetchState_failure (net : FetchResult) (e : Exn) (w : World) :
  poll_error net = Some e ->
  fetchState net w = (inr tt, logged ("State error: " ++ exn_toString e) w).
Proof.
  intros He. unfold fetchState, try_catch, bind.
  destruct net as [e0|res]; cbn [poll_error await_fetch] in *.
  - injection He as ->. unfold throw. apply log_text_run.
  - unfold ret, throw, lift in *.
    destruct (res_ok res); cbn [negb] in *.
    + destruct (res_json res) as [e0|data]; [|discriminate].
      injection He as ->. apply log_text_run.
    + destruct (res_text res) as [e0|body]; injection He as <-; apply log_text_run.
Qed.

Lemma fetchState_parsed (net : FetchResult) (data : JSValue) (w : World) :
  poll_data net = Some data ->
  fetchState net w =
  try_catch (renderState data)
            (fun err => log (JStr ("State error: " ++ exn_toString err)))
            (mkWorld data (page w) (clock w)).
Proof.
  intros Hd. destruct net as [e0|res]; cbn [poll_data] in Hd; [discriminate|].
  destruct (res_ok res) eqn:Hok; [|discriminate].
  destruct (res_json res) as [e0|d] eqn:Hjson; [discriminate|].
  injection Hd as ->.
  unfold fetchState, try_catch, bind, await_fetch, ret, lift, set_latestState.
  rewrite Hok, Hjson. reflexivity.
Qed.

(** C3.  When a poll fails - [fetch] rejects, the status is not successful,
    or the body does not parse - [fetchState] returns normally having run
    [log] once, with the text ["State error: "] followed by the error (for a
    status that is not successful, the error whose message is the response
    body): the new paragraph is the first of the log, which otherwise keeps
    its entries (its 80 most recent ones, once full); [latestState] and
    every status field, chip and button are what they were. *)
Theorem poll_failure_logs_and_keeps_state (net : FetchResult) (e : Exn) (w : World) :
  poll_error net = Some e ->
  let w' := snd (fetchState net w) in
  let entry := log_line (clock w 0%nat) ("State error: " ++ exn_toString e) in
  fetchState net w = (inr tt, logged ("State error: " ++ exn_toString e) w) /\
  latestState w' = latestState w /\
  hd_error (logEl (page w')) = Some entry /\
  (log_within_bound w -> logEl (page w') = firstn 80 (entry :: logEl (page w))) /\
  (floorsEl (page w') = floorsEl (page w) /\
   queueChipsEl (page w') = queueChipsEl (page w) /\
   dirEl (page w') = dirEl (page w) /\
   currentEl (page w') = currentEl (page w) /\
   targetEl (page w') = targetEl (page w) /\
   queueSizeEl (page w') = queueSizeEl (page w) /\
   floorCountEl (page w') = floorCountEl (page w)).
Proof.
  intros He. cbn zeta. rewrite (fetchState_failure net e w He). cbn [snd].
  destruct (logged_frame ("State error: " ++ exn_toString e) w)
    as (Hls & Hfl & Hdir & Hcur & Htgt & Hqs & Hqc & Hfc & Hhd & Hlog).
  split; [reflexivity|]. split; [exact Hls|]. split; [exact Hhd|].
  split; [exact Hlog|]. repeat split; assumption.
Qed.

(** C9.  When a poll succeeds - the status is successful, the body parses
    to [data] and rendering [data] returns normally - [latestState] becomes
    [data], the page is the page rendered from [data], and the log is what
    it was: nothing is appended and the clock is not even read.  For a
    snapshot the rendered page is the one painted from it. *)
Theorem poll_success_is_silent (net : FetchResult) (data : JSValue) (w : World) :
  poll_data net = Some data ->
  fst (renderState data w) = inr tt ->
  let w' := snd (fetchState net w) in
  fst (fetchState net w) = inr tt /\
  latestState w' = data /\
  page w' = page (snd (renderState data w)) /\
  logEl (page w') = logEl (page w) /\
  clock w' = clock w /\
  (forall s, data = ElevatorState_json s -> page w' = painted s (page w)).
Proof.
  intros Hd Hok. cbn zeta. rewrite (fetchState_parsed net data w Hd).
  destruct (paints_renderState data w) as (_ & _ & Hlog & Hdep).
  unfold try_catch. rewrite (Hdep data (clock w)), Hok. cbn [fst snd latestState page clock].
  split; [reflexivity|]. split; [reflexivity|]. split; [reflexivity|].
  split; [exact Hlog|]. split; [reflexivity|].
  intros s ->. rewrite renderState_snapshot. reflexivity.
Qed.

(** C10.  When the status of a poll is successful and the body parses to
    [data], whatever [data] is, line 26 has stored it in [latestState]
    before line 27 renders it: [fetchState] is the rendering of [data],
    with its handler, in a world whose [latestState] is [data] already.  So
    [latestState] is [data] afterwards in every case, there being no check
    of its shape; if the rendering throws, what it painted so far stays and
    the error is logged, and [fetchState] still returns normally. *)
Theorem poll_stores_before_rendering (net : FetchResult) (data : JSValue) (w : World) :
  poll_data net = Some data ->
  fetchState net w =
    try_catch (renderState data)
              (fun err => log (JStr ("State error: " ++ exn_toString err)))
              (mkWorld data (page w) (clock w)) /\
  fst (fetchState net w) = inr tt /\
  latestState (snd (fetchState net w)) = data /\
  snd (fetchState net w) =
    match fst (renderState data w) with
    | inr _ => mkWorld data (page (snd (renderState data w))) (clock w)
    | inl e => logged ("State error: " ++ exn_toString e)
                      (mkWorld data (page (snd (renderState data w))) (clock w))
    end.
Proof.
  intros Hd. split; [apply fetchState_parsed; exact Hd|].
  rewrite (fetchState_parsed net data w Hd).
  destruct (paints_renderState data w) as (_ & _ & _ & Hdep).
  unfold try_catch. rewrite (Hdep data (clock w)).
  destruct (fst (renderState data w)) as [e|[]].
  - rewrite log_text_run. cbn [fst snd]. repeat split; reflexivity.
  - cbn [fst snd]. repeat split; reflexivity.
Qed.

End Poll.

(** ** How rendering ends *)

Lemma steady_ret {A} (a : A) : steady (ret a).
Proof. intros w w'; reflexivity. Qed.

Lemma steady_throw {A} (e : Exn) : steady (@throw A e).
Proof. intros w w'; reflexivity. Qed.

Lemma steady_lift {A} (r : Exn + A) : steady (lift r).
Proof. intros w w'; reflexivity. Qed.

Lemma steady_modify_page (f : Page -> Page) : steady (modify_page f).
Proof. intros w w'; reflexivity. Qed.

Lemma steady_bind {A B} (m : M A) (k : A -> M B) :
  steady m -> (forall a, steady (k a)) -> steady (bind m k).
Proof.
  intros Hm Hk w w'. unfold bind. specialize (Hm w w').
  destruct (m w) as [[e|a] w1], (m w') as [[e'|a'] w1']; cbn [fst snd] in *.
  - injection Hm as <-. reflexivity.
  - discriminate.
  - discriminate.
  - injection Hm as <-. apply (Hk a).
Qed.

Lemma steady_forEach {A} (f : A -> M unit) (l : list A) :
  (forall x, steady (f x)) -> steady (forEach f l).
Proof.
  intros Hf; induction l as [|x l IH]; cbn [forEach].
  - apply steady_ret.
  - apply steady_bind; [apply Hf | intros _; exact IH].
Qed.

Ltac steadily :=
  repeat (apply steady_bind; [|intro]);
  try apply steady_lift;
  try apply steady_ret;
  try apply steady_throw;
  try apply steady_modify_page.

Section Steady.
Context `{Engine}.

Lemma steady_renderState (v : JSValue) : steady (renderState v).
Proof.
  unfold renderState. destruct (negb (truthy v)); [apply steady_ret|].
  steadily.
  - match goal with |- steady (call_forEach ?q _) => destruct q end;
      cbn [call_forEach]; try apply steady_throw.
    apply steady_forEach. intros f. unfold render_chip. steadily.
  - apply steady_forEach. intros info. unfold render_floor. steadily.
Qed.

End Steady.

(** ** Rendering twice *)

Ltac alike :=
  repeat split; solve [left; split; reflexivity | right; reflexivity].

Section RenderTwice.
Context `{Engine}.

(** What rendering does to a field of the view does not depend on the page
    it starts from. *)
Lemma renderState_uniform (v : JSValue) (w w' : World) :
  uniformly floorsEl (renderState v) w w' /\
  uniformly dirEl (renderState v) w w' /\
  uniformly currentEl (renderState v) w w' /\
  uniformly targetEl (renderState v) w w' /\
  uniformly queueSizeEl (renderState v) w w' /\
  uniformly queueChipsEl (renderState v) w w' /\
  uniformly floorCountEl (renderState v) w w'.
Proof.
  destruct w as [ls pg clk], w' as [ls' pg' clk']. unfold uniformly, renderState.
  destruct (truthy v); run; [|alike].
  destruct (get v "direction") as [e|d]; run; [alike|].
  destruct (toString d) as [e|sd]; run; [alike|].
  destruct (get v "currentFloor") as [e|cf]; run; [alike|].
  destruct (text_of cf) as [e|tcf]; run; [alike|].
  destruct (get v "activeTarget") as [e|tgt]; run; [alike|].
  destruct (text_of (js_coalesce tgt (JStr "-"))) as [e|ttgt]; run; [alike|].
  destruct (get v "queue") as [e|q]; run; [alike|].
  destruct (get q "length") as [e|len]; run; [alike|].
  destruct (text_of len) as [e|tlen]; run; [alike|].
  destruct (get v "numFloors") as [e|nf]; run; [alike|].
  destruct (toString nf) as [e|snf]; run; [alike|].
  destruct q as [| |b|n|s0|l|ps]; cbn [call_forEach]; run; try alike.
  unfold bind; cbv beta. rewrite !forEach_render_chip.
  destruct (build chip_of l) as [[e|[]] cs]; run; [alike|].
  destruct (get v "floors") as [e|fl]; run; [alike|].
  destruct (spread fl) as [e|infos]; run; [alike|].
  unfold bind; cbv beta. rewrite !forEach_render_floor.
  destruct (build button_of (List.rev infos)) as [o bs]; run. alike.
Qed.

Lemma uniformly_again {T} (F : Page -> T) (m : M unit) (w : World) :
  uniformly F m w (snd (m w)) ->
  F (page (snd (m (snd (m w))))) = F (page (snd (m w))).
Proof. intros [[_ Hkept]|Hset]; [exact Hkept | symmetry; exact Hset]. Qed.

(** C5.  Rendering a state again right after rendering it changes nothing:
    the second call ends as the first did and leaves the same world, hence
    the same floor list, chips and status fields.  This holds for every
    value, also one on which rendering throws half-way. *)
Theorem renderState_idempotent (v : JSValue) (w : World) :
  renderState v (snd (renderState v w)) = renderState v w.
Proof.
  destruct (renderState_uniform v w (snd (renderState v w)))
    as (Hfl & Hdir & Hcur & Htgt & Hqs & Hqc & Hfc).
  apply uniformly_again in Hfl, Hdir, Hcur, Htgt, Hqs, Hqc, Hfc.
  destruct (paints_renderState v (snd (renderState v w))) as (Hls & Hclk & Hlog & _).
  pose proof (steady_renderState v (snd (renderState v w)) w) as Hout.
  destruct (renderState v (snd (renderState v w))) as [o2 [ls2 [a2 b2 c2 d2 e2 f2 g2 h2] clk2]].
  destruct (renderState v w) as [o1 [ls1 [a1 b1 c1 d1 e1 f1 g1 h1] clk1]].
  cbn in *. congruence.
Qed.

End RenderTwice.


(** ** The request path *)

Section Request.
Context `{Engine}.

Lemma requestFloor_failure (floor : JSValue) (net : FetchResult) (e : Exn) (w : World) :
  request_error net = Some e ->
  requestFloor floor net w = (inr tt, logged ("Request error: " ++ exn_toString e) w).
Proof.
  intros He. unfold requestFloor, try_catch, bind.
  destruct net as [e0|res]; cbn [request_error await_fetch] in *.
  - injection He as ->. unfold throw. apply log_text_run.
  - unfold ret, throw, lift in *.
    destruct (res_json res) as [e0|data].
    + injection He as ->. apply log_text_run.
    + destruct (res_ok res); cbn [negb] in *; [discriminate|].
      destruct (get data "detail") as [e0|detail].
      * injection He as ->. apply log_text_run.
      * destruct (new_Error _) as [e0|err]; injection He as ->; apply log_text_run.
Qed.

Lemma requestFloor_success (floor : JSValue) (res : Response)
      (data msg st : JSValue) (text : string) (w : World) :
  res_ok res = true ->
  res_json res = inr data ->
  get data "message" = inr msg ->
  request_log_text floor msg = inr text ->
  get data "state" = inr st ->
  requestFloor floor (Resolved res) w =
  try_catch (renderState (js_or st (latestState w)))
            (fun err => log (JStr ("Request error: " ++ exn_toString err)))
            (logged text w).
Proof.
  intros Hok Hjson Hmsg Htext Hst.
  unfold requestFloor, try_catch, bind, await_fetch, ret, lift, get_latestState.
  rewrite Hjson, Hok, Hmsg, Hst. cbn [negb].
  unfold request_log_text in Htext.
  destruct (truthy msg).
  - rewrite log_run, Htext. reflexivity.
  - destruct (toString floor) as [e|s]; [discriminate|].
    injection Htext as <-. rewrite log_text_run. reflexivity.
Qed.

End Request.

Section RequestProperties.
Context `{Engine}.

(** C1, as the script has it.  A successful floor request whose response
    carries a state payload [st] logs its message and renders [st] - and
    does not store it: [latestState] is afterwards what it was before, the
    value of the last successful poll.  If the rendering returns normally
    the outcome is the page rendered from [st] over the world with the new
    log line; for a snapshot that is the page painted from it. *)
Theorem request_success_renders_without_storing
        (floor : JSValue) (res : Response) (data msg st : JSValue)
        (text : string) (w : World) :
  res_ok res = true ->
  res_json res = inr data ->
  get data "message" = inr msg ->
  request_log_text floor msg = inr text ->
  get data "state" = inr st ->
  truthy st = true ->
  let out := requestFloor floor (Resolved res) w in
  out = try_catch (renderState st)
                  (fun err => log (JStr ("Request error: " ++ exn_toString err)))
                  (logged text w) /\
  latestState (snd out) = latestState w /\
  (fst (renderState st w) = inr tt ->
   out = (inr tt, snd (renderState st (logged text w)))) /\
  (forall s, st = ElevatorState_json s ->
   out = (inr tt, on_page (painted s) (logged text w))).
Proof.
  intros Hok Hjson Hmsg Htext Hst Htruthy. cbn zeta.
  rewrite (requestFloor_success floor res data msg st text w Hok Hjson Hmsg Htext Hst).
  unfold js_or. rewrite Htruthy.
  split; [reflexivity|]. unfold try_catch.
  destruct (paints_renderState st (logged text w)) as (Hls & _).
  split; [|split].
  - destruct (renderState st (logged text w)) as [[e|[]] w1]; cbn [fst snd] in *.
    + rewrite log_keeps_latestState. exact Hls.
    + exact Hls.
  - intros Hfine. rewrite (steady_renderState st w (logged text w)) in Hfine.
    destruct (renderState st (logged text w)) as [[e|[]] w1]; cbn [fst snd] in *;
      [discriminate | reflexivity].
  - intros s ->. rewrite renderState_snapshot. reflexivity.
Qed.

(** C7, as the script has it.  When a floor request fails - [fetch]
    rejects, the body does not parse, or the status is not successful -
    [requestFloor] returns normally having run [log] once with the text
    ["Request error: "] followed by the error, and neither [latestState] nor
    any status field, chip or button changes.  The error is the rejection
    of [fetch], or else the rejection of [res.json()]; for a status that is
    not successful and a body that parsed to [data] it is, in every case:
    the [TypeError] of reading [detail] when [data] is [null]; otherwise the
    error whose message is [data.detail] converted to a string when
    [data.detail] is truthy (or the fault of that conversion, should it
    throw), and the error whose message is the status text when
    [data.detail] is not truthy (absent, empty, [null], [0] or [false]). *)
Theorem request_failure_logs_detail_and_keeps_view
        (floor : JSValue) (net : FetchResult) (e : Exn) (w : World) :
  request_error net = Some e ->
  let w' := snd (requestFloor floor net w) in
  let entry := log_line (clock w 0%nat) ("Request error: " ++ exn_toString e) in
  requestFloor floor net w = (inr tt, logged ("Request error: " ++ exn_toString e) w) /\
  hd_error (logEl (page w')) = Some entry /\
  (forall rejection, net = Rejected rejection -> e = rejection) /\
  (forall res rejection,
      net = Resolved res -> res_json res = inl rejection -> e = rejection) /\
  (forall res data,
      net = Resolved res -> res_ok res = false -> res_json res = inr data ->
      if nullish data
      then e = TypeError (ReadOfNullish data "detail")
      else exists detail,
          get data "detail" = inr detail /\
          if truthy detail
          then match toString detail with
               | inr s => e = Error s
               | inl fault => e = fault
               end
          else e = Error (res_statusText res)) /\
  latestState w' = latestState w /\
  (floorsEl (page w') = floorsEl (page w) /\
   queueChipsEl (page w') = queueChipsEl (page w) /\
   dirEl (page w') = dirEl (page w) /\
   currentEl (page w') = currentEl (page w) /\
   targetEl (page w') = targetEl (page w) /\
   queueSizeEl (page w') = queueSizeEl (page w) /\
   floorCountEl (page w') = floorCountEl (page w)).
Proof.
  intros He. cbn zeta. rewrite (requestFloor_failure floor net e w He). cbn [snd].
  destruct (logged_frame ("Request error: " ++ exn_toString e) w)
    as (Hls & Hfl & Hdir & Hcur & Htgt & Hqs & Hqc & Hfc & Hhd & _).
  split; [reflexivity|]. split; [exact Hhd|].
  split; [intros rejection ->; cbn [request_error] in He; congruence|].
  split; [intros res rejection -> Hjson; cbn [request_error] in He;
          rewrite Hjson in He; congruence|].
  split.
  - intros res data -> Hok Hjson.
    cbn [request_error] in He. rewrite Hjson, Hok in He. cbn [negb] in He.
    destruct (nullish data) eqn:Hnull.
    + destruct data; try discriminate Hnull; cbn [get] in He; congruence.
    + assert (Hget : exists detail, get data "detail" = inr detail)
        by (destruct data; try discriminate Hnull; cbn [get]; eauto).
      destruct Hget as [detail Hdetail]. exists detail. split; [exact Hdetail|].
      rewrite Hdetail in He. unfold js_or in He.
      destruct (truthy detail) eqn:Ht.
      * unfold new_Error in He.
        destruct detail; try discriminate Ht;
          destruct (toString _) as [fault|txt]; congruence.
      * cbn [new_Error toString] in He. congruence.
  - split; [exact Hls|]. repeat split; assumption.
Qed.

End RequestProperties.

(** * The properties at work on the scenarios *)

(** After a first poll the world holds the snapshot; the poll has logged
    nothing and the clock still reads ["t0"]. *)
Example polled_world :
  latestState polled = ElevatorState_json idle_at_3 /\
  page polled = painted idle_at_3 blank_page /\
  map textContent (floorsEl (page polled)) = ["5"; "4"; "3"; "2"; "1"] /\
  map disabled (floorsEl (page polled)) = [false; false; true; false; false] /\
  clock polled 0%nat = "t0".
Proof. repeat split; reflexivity. Qed.

Lemma poll_failure_logs_and_keeps_state_witness :
  poll_error (Resolved db_down) = Some (Error "db down") /\
  latestState (snd (@fetchState v8 (Resolved db_down) polled)) = ElevatorState_json idle_at_3 /\
  map textContent (logEl (page (snd (@fetchState v8 (Resolved db_down) polled)))) =
    ["[t0] State error: Error: db down"] /\
  floorsEl (page (snd (@fetchState v8 (Resolved db_down) polled))) = floorsEl (page polled).
Proof.
  split; [reflexivity|].
  destruct (@poll_failure_logs_and_keeps_state v8 (Resolved db_down) (Error "db down")
              polled eq_refl) as (_ & Hls & _ & Hlog & Hfloors & _).
  split; [exact Hls|]. split.
  - rewrite Hlog; [reflexivity | split; [reflexivity | cbn; lia]].
  - exact Hfloors.
Defined.

Lemma poll_success_is_silent_witness :
  poll_data (Resolved (ok_response (ElevatorState_json queued_floor_4)))
    = Some (ElevatorState_json queued_floor_4) /\
  fst (@renderState v8 (ElevatorState_json queued_floor_4) polled) = inr tt /\
  let w' := snd (@fetchState v8 (Resolved (ok_response (ElevatorState_json queued_floor_4)))
                   polled) in
  latestState w' = ElevatorState_json queued_floor_4 /\
  page w' = painted queued_floor_4 (page polled) /\
  logEl (page w') = [].
Proof.
  split; [reflexivity|]. split; [reflexivity|]. cbn zeta.
  destruct (@poll_success_is_silent v8
              (Resolved (ok_response (ElevatorState_json queued_floor_4)))
              (ElevatorState_json queued_floor_4) polled eq_refl eq_refl)
    as (_ & Hls & _ & Hlog & _ & Hpaint).
  split; [exact Hls|]. split; [exact (Hpaint queued_floor_4 eq_refl)|].
  rewrite Hlog. reflexivity.
Defined.

Lemma poll_stores_before_rendering_witness :
  poll_data (Resolved (ok_response no_queue)) = Some no_queue /\
  let w' := snd (@fetchState v8 (Resolved (ok_response no_queue)) polled) in
  latestState w' = no_queue /\
  map textContent (logEl (page w')) =
    ["[t0] State error: TypeError: Cannot read properties of undefined (reading 'length')"] /\
  dirEl (page w') = "Direction: Up" /\
  map textContent (floorsEl (page w')) = ["5"; "4"; "3"; "2"; "1"].
Proof.
  split; [reflexivity|]. cbn zeta.
  destruct (@poll_stores_before_rendering v8 (Resolved (ok_response no_queue)) no_queue
              polled eq_refl) as (_ & _ & Hls & Hworld).
  split; [exact Hls|]. rewrite Hworld. repeat split; reflexivity.
Defined.

Lemma request_success_renders_without_storing_witness :
  res_ok (ok_response queued_reply) = true /\
  @get v8 queued_reply "state" = inr (ElevatorState_json queued_floor_4) /\
  let w' := snd (@requestFloor v8 (JNum 4) (Resolved (ok_response queued_reply)) polled) in
  latestState w' = ElevatorState_json idle_at_3 /\
  page w' = painted queued_floor_4 (page (logged "Queued floor 4" polled)) /\
  map textContent (logEl (page w')) = ["[t0] Queued floor 4"].
Proof.
  split; [reflexivity|]. split; [reflexivity|]. cbn zeta.
  destruct (@request_success_renders_without_storing v8 (JNum 4) (ok_response queued_reply)
              queued_reply (JStr "Queued floor 4") (ElevatorState_json queued_floor_4)
              "Queued floor 4" polled eq_refl eq_refl eq_refl eq_refl eq_refl eq_refl)
    as (_ & Hls & _ & Hpaint).
  split; [exact Hls|].
  rewrite (Hpaint queued_floor_4 eq_refl). split; reflexivity.
Defined.

(** C1 as stated fails: the reply to a request for floor 4 carries the new
    snapshot, and after [requestFloor] has handled it [latestState] is
    still the snapshot of the earlier poll. *)
Lemma request_overwrites_latestState_counterexample :
  let res := ok_response queued_reply in
  let w' := snd (@requestFloor v8 (JNum 4) (Resolved res) polled) in
  res_ok res = true /\
  res_json res = inr queued_reply /\
  @get v8 queued_reply "state" = inr (ElevatorState_json queued_floor_4) /\
  fst (@requestFloor v8 (JNum 4) (Resolved res) polled) = inr tt /\
  latestState w' = ElevatorState_json idle_at_3 /\
  latestState w' <> ElevatorState_json queued_floor_4.
Proof.
  cbn zeta. repeat split; try reflexivity.
  vm_compute. discriminate.
Qed.

Lemma request_failure_logs_detail_and_keeps_view_witness :
  @request_error v8 (Resolved out_of_range) = Some (Error "Floor 9 is out of range") /\
  let w' := snd (@requestFloor v8 (JNum 9) (Resolved out_of_range) polled) in
  map textContent (logEl (page w')) = ["[t0] Request error: Error: Floor 9 is out of range"] /\
  latestState w' = latestState polled /\
  floorsEl (page w') = floorsEl (page polled).
Proof.
  split; [reflexivity|]. cbn zeta.
  destruct (@request_failure_logs_detail_and_keeps_view v8 (JNum 9) (Resolved out_of_range)
              (Error "Floor 9 is out of range") polled eq_refl)
    as (Hrun & _ & _ & _ & _ & Hls & Hfloors & _).
  split; [rewrite Hrun; reflexivity|]. split; [exact Hls | exact Hfloors].
Defined.

(** C7 as stated fails three times.  For a status 502 with a body that is
    not JSON, the log shows the parse error, not the status text; for a
    status 400 with the body [{"detail": ""}], the field is present and the
    log shows the status text; for a status 400 with the body [null], there
    is no [detail] and the log shows the fault of reading it, not the status
    text. *)
Lemma request_error_detail_counterexample :
  (res_ok bad_gateway = false /\
   map textContent (logEl (page (snd (@requestFloor v8 (JNum 4) (Resolved bad_gateway) polled))))
     = ["[t0] Request error: SyntaxError: Unexpected token '<'"] /\
   ~ @logs_spec_error_detail v8 (JNum 4) bad_gateway polled) /\
  (res_ok empty_detail = false /\
   spec_error_detail empty_detail = JStr "" /\
   map textContent (logEl (page (snd (@requestFloor v8 (JNum 4) (Resolved empty_detail) polled))))
     = ["[t0] Request error: Error: Bad Request"] /\
   ~ @logs_spec_error_detail v8 (JNum 4) empty_detail polled) /\
  (res_ok null_refusal = false /\
   res_json null_refusal = inr JNull /\
   spec_error_detail null_refusal = JStr "Bad Request" /\
   map textContent (logEl (page (snd (@requestFloor v8 (JNum 4) (Resolved null_refusal) polled))))
     = ["[t0] Request error: TypeError: Cannot read properties of null (reading 'detail')"] /\
   ~ @logs_spec_error_detail v8 (JNum 4) null_refusal polled).
Proof.
  split; [|split].
  - split; [reflexivity|]. split; [reflexivity|].
    intros [s [Hs Hhd]]. vm_compute in Hs. injection Hs as <-.
    vm_compute in Hhd. discriminate.
  - split; [reflexivity|]. split; [reflexivity|]. split; [reflexivity|].
    intros [s [Hs Hhd]]. vm_compute in Hs. injection Hs as <-.
    vm_compute in Hhd. discriminate.
  - split; [reflexivity|]. split; [reflexivity|]. split; [reflexivity|].
    split; [vm_compute; reflexivity|].
    intros [s [Hs Hhd]]. vm_compute in Hs. injection Hs as <-.
    vm_compute in Hhd. discriminate.
Qed.

(** * Further properties of the script *)

(** ** Clicks on a rendered snapshot *)

Section Clicks.
Context `{Engine}.

(** X1.  On the page rendered from a snapshot, a click on the [i]-th button
    from the top issues a request exactly when the [i]-th floor from the
    top is idle, and that request is the [POST] to [/request] whose body is
    [{floor: n}] for the number [n] of that floor; a click on the button of
    a current, moving or queued floor, or past the last button, issues
    nothing. *)
Theorem click_requests_idle_floor (s : ElevatorState) (w : World) (i : nat) :
  click i (snd (renderState (ElevatorState_json s) w)) =
  match nth_error (List.rev (floors s)) i with
  | Some fi => if is_idle fi then Some (request_init (JNum (floor fi))) else None
  | None => None
  end.
Proof.
  rewrite renderState_snapshot. unfold click.
  cbn [snd on_page page painted floorsEl].
  rewrite nth_error_map.
  destruct (nth_error (List.rev (floors s)) i) as [[f st]|]; [|reflexivity].
  destruct st; reflexivity.
Qed.

End Clicks.

(** ** The renderer on snapshots and on other values *)

Lemma page_eq (p q : Page) : view p = view q -> logEl p = logEl q -> p = q.
Proof.
  destruct p, q; unfold view, with_logEl; cbn. intros [= -> -> -> -> -> -> ->] ->.
  reflexivity.
Qed.

Section RenderMore.
Context `{Engine}.

(** X2.  Rendering a snapshot, valid or not, returns normally and sets the
    five status fields from it: the direction after ["Direction: "], the
    current floor, the active target or ["-"] when there is none (a target
    [0] is shown as ["0"]), the length of the queue, and [numFloors]
    followed by [" floors"] - the number the snapshot states, while the
    buttons are as many as its [floors]. *)
Theorem renderState_status_fields (s : ElevatorState) (w : World) :
  let out := renderState (ElevatorState_json s) w in
  let pg := page (snd out) in
  fst out = inr tt /\
  dirEl pg = "Direction: " ++ Direction_name (direction s) /\
  currentEl pg = number_toString (currentFloor s) /\
  targetEl pg = match activeTarget s with
                | Some t => number_toString t
                | None => "-"
                end /\
  queueSizeEl pg = number_toString (Z.of_nat (List.length (queue s))) /\
  floorCountEl pg = number_toString (numFloors s) ++ " floors" /\
  List.length (floorsEl pg) = List.length (floors s).
Proof.
  cbn zeta. rewrite renderState_snapshot.
  cbn [fst snd on_page page painted dirEl currentEl targetEl queueSizeEl floorCountEl floorsEl].
  repeat (split; [reflexivity|]).
  rewrite length_map, length_rev. reflexivity.
Qed.

(** Where rendering a truthy value returns normally, the view it leaves is
    the same whatever the page was before. *)
Lemma render_view_determined (v : JSValue) (w w' : World) :
  truthy v = true ->
  fst (renderState v w) = inr tt ->
  view (page (snd (renderState v w))) = view (page (snd (renderState v w'))).
Proof.
  destruct w as [ls pg clk], w' as [ls' pg' clk']. unfold renderState.
  intros ->; run.
  destruct (get v "direction") as [e|d]; run; [discriminate|].
  destruct (toString d) as [e|sd]; run; [discriminate|].
  destruct (get v "currentFloor") as [e|cf]; run; [discriminate|].
  destruct (text_of cf) as [e|tcf]; run; [discriminate|].
  destruct (get v "activeTarget") as [e|tgt]; run; [discriminate|].
  destruct (text_of (js_coalesce tgt (JStr "-"))) as [e|ttgt]; run; [discriminate|].
  destruct (get v "queue") as [e|q]; run; [discriminate|].
  destruct (get q "length") as [e|len]; run; [discriminate|].
  destruct (text_of len) as [e|tlen]; run; [discriminate|].
  destruct (get v "numFloors") as [e|nf]; run; [discriminate|].
  destruct (toString nf) as [e|snf]; run; [discriminate|].
  destruct q as [| |b|n|s0|l|ps]; cbn [call_forEach]; run; try discriminate.
  unfold bind; cbv beta. rewrite !forEach_render_chip.
  destruct (build chip_of l) as [[e|[]] cs]; run; [discriminate|].
  destruct (get v "floors") as [e|fl]; run; [discriminate|].
  destruct (spread fl) as [e|infos]; run; [discriminate|].
  unfold bind; cbv beta. rewrite !forEach_render_floor.
  destruct (build button_of (List.rev infos)) as [o bs]; run. reflexivity.
Qed.

(** X3.  Rendering rebuilds the whole view: for a truthy value on which it
    returns normally, the buttons, the chips and the five status fields it
    leaves are the same whatever the page showed before; nothing of the
    previous frame survives. *)
Theorem renderState_rebuilds_view (v : JSValue) (w w' : World) :
  truthy v = true ->
  fst (renderState v w) = inr tt ->
  let pg := page (snd (renderState v w)) in
  let pg' := page (snd (renderState v w')) in
  fst (renderState v w') = inr tt /\
  floorsEl pg = floorsEl pg' /\
  queueChipsEl pg = queueChipsEl pg' /\
  dirEl pg = dirEl pg' /\
  currentEl pg = currentEl pg' /\
  targetEl pg = targetEl pg' /\
  queueSizeEl pg = queueSizeEl pg' /\
  floorCountEl pg = floorCountEl pg'.
Proof.
  intros Ht Hfine. cbn zeta.
  split; [rewrite <- Hfine; apply steady_renderState|].
  pose proof (render_view_determined v w w' Ht Hfine) as Hview.
  destruct (page (snd (renderState v w))), (page (snd (renderState v w'))).
  unfold view, with_logEl in Hview; cbn in *.
  injection Hview as -> -> -> -> -> -> ->. repeat split; reflexivity.
Qed.

(** X4.  Whatever value it is given, and also when it throws half-way,
    rendering changes neither [latestState] nor the log nor the clock, and
    whether it returns or throws (and what) depends on the value alone. *)
Theorem renderState_touches_view_only (v : JSValue) (w : World) :
  latestState (snd (renderState v w)) = latestState w /\
  logEl (page (snd (renderState v w))) = logEl (page w) /\
  clock (snd (renderState v w)) = clock w /\
  forall w', fst (renderState v w') = fst (renderState v w).
Proof.
  destruct (paints_renderState v w) as (Hls & Hclk & Hlog & _).
  split; [exact Hls|]. split; [exact Hlog|]. split; [exact Hclk|].
  intros w'. apply steady_renderState.
Qed.

(** X5.  A truthy value without a queue ([queue] missing or [null]) makes
    rendering throw, at line 54 at the latest: the queue size, the floor
    count, the chips and the buttons stay as they were, only the direction,
    current floor and target fields having possibly been rewritten. *)
Theorem renderState_without_queue (v q : JSValue) (w : World) :
  truthy v = true ->
  get v "queue" = inr q ->
  nullish q = true ->
  let out := renderState v w in
  (exists e, fst out = inl e) /\
  queueSizeEl (page (snd out)) = queueSizeEl (page w) /\
  floorCountEl (page (snd out)) = floorCountEl (page w) /\
  queueChipsEl (page (snd out)) = queueChipsEl (page w) /\
  floorsEl (page (snd out)) = floorsEl (page w).
Proof.
  intros Ht Hq Hnull. cbn zeta. destruct w as [ls pg clk]. unfold renderState.
  rewrite Ht; run.
  destruct (get v "direction") as [e|d]; run; [repeat split; eauto|].
  destruct (toString d) as [e|sd]; run; [repeat split; eauto|].
  destruct (get v "currentFloor") as [e|cf]; run; [repeat split; eauto|].
  destruct (text_of cf) as [e|tcf]; run; [repeat split; eauto|].
  destruct (get v "activeTarget") as [e|tgt]; run; [repeat split; eauto|].
  destruct (text_of (js_coalesce tgt (JStr "-"))) as [e|ttgt]; run; [repeat split; eauto|].
  rewrite Hq; run.
  destruct q; try discriminate; cbn [get]; run; repeat split; eauto.
Qed.

End RenderMore.

(** ** The log above its cap *)

Lemma trim_log_only_lines (l : list Element) :
  forallb (has_class "log-line") l = true ->
  trim_log l = if (80 <? List.length l)%nat then removelast l else l.
Proof.
  intros Hall. unfold trim_log, querySelectorAll.
  rewrite (querySelectorAll_from_all _ _ _ Hall), length_seq.
  destruct (Nat.ltb_spec 80 (List.length l)) as [Hgt|Hle]; [|reflexivity].
  rewrite seq_nth by lia. cbn [Nat.add].
  unfold remove_child.
  replace (S (List.length l - 1)) with (List.length l) by lia.
  rewrite skipn_all, app_nil_r.
  rewrite removelast_firstn_len. f_equal. lia.
Qed.

Section LogCap.
Context `{Engine}.

(** X6.  [log] removes at most one line per call.  On a log of [n] lines
    (and nothing else) it puts the new paragraph in front and, when [n] is
    80 or more, drops the last line only: a log that holds more than 80
    lines keeps its size, it is not cut back to 80. *)
Theorem log_drops_one_line_per_call (s : string) (w : World) :
  only_log_lines w ->
  let old := logEl (page w) in
  let new := logEl (page (snd (log (JStr s) w))) in
  new = log_line (clock w 0%nat) s ::
        (if (80 <=? List.length old)%nat then removelast old else old) /\
  List.length new = (if (80 <=? List.length old)%nat
                     then List.length old else S (List.length old)).
Proof.
  intros Hall. cbn zeta. rewrite log_text_run. unfold logged; cbn [snd page logEl with_logEl].
  set (e := log_line (clock w 0%nat) s). set (l := logEl (page w)).
  assert (Hnew : trim_log (e :: l) = e :: (if (80 <=? List.length l)%nat then removelast l else l)).
  { rewrite trim_log_only_lines by (cbn [forallb]; unfold only_log_lines in Hall; fold l in Hall;
                                    rewrite Hall; reflexivity).
    cbn [List.length]. change (80 <? S (List.length l))%nat with (80 <=? List.length l)%nat.
    destruct (Nat.leb_spec 80 (List.length l)) as [Hge|Hlt]; [|reflexivity].
    destruct l as [|x l']; [cbn in Hge; lia|]. reflexivity. }
  rewrite Hnew. split; [reflexivity|].
  cbn [List.length].
  destruct (Nat.leb_spec 80 (List.length l)) as [Hge|Hlt]; [|reflexivity].
  destruct l as [|x l']; [cbn in Hge; lia|].
  rewrite removelast_firstn_len, length_firstn. cbn [List.length]. lia.
Qed.

End LogCap.

Lemma log_drops_one_line_per_call_witness :
  only_log_lines crowded /\
  List.length (logEl (page crowded)) = 100%nat /\
  List.length (logEl (page (snd (@log v8 (JStr "up") crowded)))) = 100%nat /\
  hd_error (logEl (page (snd (@log v8 (JStr "up") crowded)))) = Some (log_line "t0" "up").
Proof.
  split; [reflexivity|]. split; [reflexivity|].
  destruct (@log_drops_one_line_per_call v8 "up" crowded eq_refl) as [Hnew Hlen].
  split; [rewrite Hlen; reflexivity | rewrite Hnew; reflexivity].
Defined.

(** ** What the handlers keep *)

Lemma preserves_ret {A} (P : World -> Prop) (a : A) : preserves P (ret a).
Proof. intros w Hw; exact Hw. Qed.

Lemma preserves_throw {A} (P : World -> Prop) (e : Exn) : preserves P (@throw A e).
Proof. intros w Hw; exact Hw. Qed.

Lemma preserves_lift {A} (P : World -> Prop) (r : Exn + A) : preserves P (lift r).
Proof. intros w Hw; exact Hw. Qed.

Lemma preserves_get_latestState (P : World -> Prop) : preserves P get_latestState.
Proof. intros w Hw; exact Hw. Qed.

Lemma preserves_await_fetch (P : World -> Prop) (net : FetchResult) :
  preserves P (await_fetch net).
Proof. destruct net; intros w Hw; exact Hw. Qed.

Lemma preserves_bind {A B} (P : World -> Prop) (m : M A) (k : A -> M B) :
  preserves P m -> (forall a, preserves P (k a)) -> preserves P (bind m k).
Proof.
  intros Hm Hk w Hw. unfold bind. specialize (Hm w Hw).
  destruct (m w) as [[e|a] w1]; cbn [snd] in *; [exact Hm | apply Hk; exact Hm].
Qed.

Lemma preserves_try_catch {A} (P : World -> Prop) (body : M A) (handler : Exn -> M A) :
  preserves P body -> (forall e, preserves P (handler e)) ->
  preserves P (try_catch body handler).
Proof.
  intros Hb Hh w Hw. unfold try_catch. specialize (Hb w Hw).
  destruct (body w) as [[e|a] w1]; cbn [snd] in *; [apply Hh; exact Hb | exact Hb].
Qed.

Lemma preserves_forEach {A} (P : World -> Prop) (f : A -> M unit) (l : list A) :
  (forall x, preserves P (f x)) -> preserves P (forEach f l).
Proof.
  intros Hf; induction l as [|x l IH]; cbn [forEach].
  - apply preserves_ret.
  - apply preserves_bind; [apply Hf | intros _; exact IH].
Qed.

Lemma log_within_bound_blind : blind_to_view log_within_bound.
Proof. intros w w' _ _ Hlog [Hall Hlen]. split; rewrite <- Hlog; assumption. Qed.

Lemma latestState_is_blind (c : JSValue) : blind_to_view (fun w => latestState w = c).
Proof. intros w w' Hls _ _ Hw. rewrite <- Hls. exact Hw. Qed.

Section Kept.
Context `{Engine}.

Lemma preserves_renderState (P : World -> Prop) (v : JSValue) :
  blind_to_view P -> preserves P (renderState v).
Proof.
  intros Hblind w Hw. destruct (paints_renderState v w) as (Hls & Hclk & Hlog & _).
  apply (Hblind w); auto.
Qed.

Lemma log_keeps_bound (msg : JSValue) : preserves log_within_bound (log msg).
Proof.
  intros w [Hall Hlen]. rewrite log_run.
  destruct (toString msg) as [e|s]; cbn [snd]; [split; assumption|].
  unfold logged, log_within_bound; cbn [page logEl with_logEl].
  rewrite trim_log_all
    by (cbn [forallb List.length]; first [rewrite Hall; reflexivity | lia]).
  split; [apply forallb_firstn; cbn [forallb]; rewrite Hall; reflexivity|].
  rewrite length_firstn. lia.
Qed.

Lemma log_keeps_stored (c : JSValue) (msg : JSValue) :
  preserves (fun w => latestState w = c) (log msg).
Proof. intros w Hw. rewrite log_keeps_latestState. exact Hw. Qed.

(** Both handlers are built from steps that keep [P], provided [log] keeps
    it and [P] does not look at the view - but for line 26. *)
Lemma preserves_requestFloor (P : World -> Prop) (floor : JSValue) (net : FetchResult) :
  blind_to_view P -> (forall msg, preserves P (log msg)) ->
  preserves P (requestFloor floor net).
Proof.
  intros Hblind Hlog. unfold requestFloor.
  apply preserves_try_catch; [|intros e; apply Hlog].
  apply preserves_bind; [apply preserves_await_fetch | intros res].
  apply preserves_bind; [apply preserves_lift | intros data].
  apply preserves_bind.
  { destruct (negb (res_ok res)); [|apply preserves_ret].
    apply preserves_bind; [apply preserves_lift | intros detail].
    apply preserves_bind; [apply preserves_lift | intros err; apply preserves_throw]. }
  intros _. apply preserves_bind; [apply preserves_lift | intros message].
  apply preserves_bind.
  { destruct (truthy message); [apply Hlog|].
    apply preserves_bind; [apply preserves_lift | intros s; apply Hlog]. }
  intros _. apply preserves_bind; [apply preserves_lift | intros st].
  apply preserves_bind; [apply preserves_get_latestState | intros latest].
  apply preserves_renderState. exact Hblind.
Qed.

Lemma fetchState_keeps_bound (net : FetchResult) :
  preserves log_within_bound (fetchState net).
Proof.
  unfold fetchState.
  apply preserves_try_catch; [|intros e; apply log_keeps_bound].
  apply preserves_bind; [apply preserves_await_fetch | intros res].
  apply preserves_bind.
  { destruct (negb (res_ok res)); [|apply preserves_ret].
    apply preserves_bind; [apply preserves_lift | intros body; apply preserves_throw]. }
  intros _. apply preserves_bind; [apply preserves_lift | intros data].
  apply preserves_bind; [intros w Hw; exact Hw | intros _].
  apply preserves_renderState, log_within_bound_blind.
Qed.

Lemma try_catch_log_returns (body : M unit) (f : Exn -> string) (w : World) :
  fst (try_catch body (fun err => log (JStr (f err))) w) = inr tt.
Proof.
  unfold try_catch. destruct (body w) as [[e|[]] w1]; [|reflexivity].
  rewrite log_text_run. reflexivity.
Qed.

Lemma poll_data_or_error (net : FetchResult) :
  poll_data net = None -> exists e, poll_error net = Some e.
Proof.
  destruct net as [e|res]; cbn [poll_data poll_error]; [eauto|].
  destruct (res_ok res); cbn [negb]; [|eauto].
  destruct (res_json res); [eauto | discriminate].
Qed.

Lemma fetchState_stores (net : FetchResult) (w : World) :
  latestState (snd (fetchState net w)) = stored (latestState w) (PollSettled net).
Proof.
  cbn [stored]. destruct (poll_data net) as [data|] eqn:Hd.
  - rewrite (fetchState_parsed net data w Hd).
    apply (preserves_try_catch (fun w => latestState w = data)); [| |reflexivity].
    + apply preserves_renderState, latestState_is_blind.
    + intros e. apply log_keeps_stored.
  - destruct (poll_data_or_error net Hd) as [e He].
    rewrite (fetchState_failure net e w He). reflexivity.
Qed.

Lemma requestFloor_stores (floor : JSValue) (net : FetchResult) (w : World) :
  latestState (snd (requestFloor floor net w)) = latestState w.
Proof.
  apply (preserves_requestFloor (fun w' => latestState w' = latestState w));
    [apply latestState_is_blind | intros msg; apply log_keeps_stored | reflexivity].
Qed.

Lemma handle_returns (ev : Event) (w : World) : fst (handle ev w) = inr tt.
Proof. destruct ev; apply try_catch_log_returns. Qed.

Lemma handle_stores (ev : Event) (w : World) :
  latestState (snd (handle ev w)) = stored (latestState w) ev.
Proof. destruct ev; [apply fetchState_stores | apply requestFloor_stores]. Qed.

Lemma handle_keeps_bound (ev : Event) : preserves log_within_bound (handle ev).
Proof.
  destruct ev; cbn [handle]; [apply fetchState_keeps_bound|].
  apply preserves_requestFloor; [apply log_within_bound_blind | apply log_keeps_bound].
Qed.

Lemma session_cons (ev : Event) (evs : list Event) (w : World) :
  session (ev :: evs) w = session evs (snd (handle ev w)).
Proof.
  unfold session; cbn [forEach]. unfold bind.
  pose proof (handle_returns ev w) as Hev.
  destruct (handle ev w) as [[e|[]] w1]; cbn [fst] in Hev; [discriminate | reflexivity].
Qed.

(** X7.  No exception escapes a handler: whatever the network answers and
    whatever the world is, [fetchState] and [requestFloor] return normally,
    and so does every run of the page. *)
Theorem handlers_never_throw :
  (forall net w, fst (fetchState net w) = inr tt) /\
  (forall floor net w, fst (requestFloor floor net w) = inr tt) /\
  (forall evs w, fst (session evs w) = inr tt).
Proof.
  split; [intros; apply try_catch_log_returns|].
  split; [intros; apply try_catch_log_returns|].
  induction evs as [|ev evs IH]; intros w; [reflexivity|].
  rewrite session_cons. apply IH.
Qed.

(** X8.  [latestState] is written by line 26 and nowhere else: after
    [fetchState] it is the parsed body if the status was successful and the
    body parsed, and what it was otherwise; after [requestFloor] it is what
    it was, whatever the response.  After a run of the page it is the body
    of the last poll that parsed, or the initial value if there was none. *)
Theorem latestState_is_the_last_parsed_poll :
  (forall net w,
      latestState (snd (fetchState net w)) =
      match poll_data net with
      | Some data => data
      | None => latestState w
      end) /\
  (forall floor net w, latestState (snd (requestFloor floor net w)) = latestState w) /\
  (forall evs w, latestState (snd (session evs w)) = fold_left stored evs (latestState w)).
Proof.
  split; [exact fetchState_stores|]. split; [exact requestFloor_stores|].
  induction evs as [|ev evs IH]; intros w; [reflexivity|].
  rewrite session_cons, IH, handle_stores. reflexivity.
Qed.

(** X9.  The handlers keep the log within its bound: if the log holds log
    lines only, and at most 80 of them, then so it does after [fetchState],
    after [requestFloor], and after every run of the page, whatever the
    network answered. *)
Theorem handlers_keep_log_within_bound :
  (forall net w, log_within_bound w -> log_within_bound (snd (fetchState net w))) /\
  (forall floor net w,
      log_within_bound w -> log_within_bound (snd (requestFloor floor net w))) /\
  (forall evs w, log_within_bound w -> log_within_bound (snd (session evs w))).
Proof.
  split; [intros net; exact (handle_keeps_bound (PollSettled net))|].
  split; [intros floor net; exact (handle_keeps_bound (RequestSettled floor net))|].
  induction evs as [|ev evs IH]; intros w Hw; [exact Hw|].
  rewrite session_cons. apply IH, handle_keeps_bound, Hw.
Qed.

End Kept.

(** ** Payloads at the edge *)

Lemma world_eq (a b : World) :
  latestState a = latestState b -> page a = page b -> clock a = clock b -> a = b.
Proof. destruct a, b; cbn; intros -> -> ->; reflexivity. Qed.

Section Edges.
Context `{Engine}.

(** X10.  A poll whose body parses to a falsy value ([null], [0], [false]
    or the empty string) is taken as a success: [latestState] becomes that
    value, nothing is rendered, so the page keeps the frame it showed, and
    nothing is logged. *)
Theorem poll_with_falsy_body_clears_latestState
        (net : FetchResult) (v : JSValue) (w : World) :
  poll_data net = Some v ->
  truthy v = false ->
  fetchState net w = (inr tt, mkWorld v (page w) (clock w)).
Proof.
  intros Hd Hv. rewrite (fetchState_parsed net v w Hd).
  unfold try_catch, renderState. rewrite Hv. reflexivity.
Qed.

(** X11.  A reply with a successful status whose body parses to [null] is
    reported as a failed request: reading [data.message] at line 42 throws,
    the error is logged, and nothing is rendered. *)
Theorem request_with_null_body_is_logged_as_error
        (floor : JSValue) (res : Response) (data : JSValue) (w : World) :
  res_ok res = true ->
  res_json res = inr data ->
  nullish data = true ->
  requestFloor floor (Resolved res) w =
  (inr tt,
   logged ("Request error: " ++ exn_toString (TypeError (ReadOfNullish data "message"))) w).
Proof.
  intros Hok Hjson Hnull.
  unfold requestFloor, try_catch, bind, await_fetch, ret, lift.
  rewrite Hjson, Hok. cbn [negb].
  destruct data; try discriminate; cbn [get]; apply log_text_run.
Qed.

(** X12.  A successful reply without a state payload (missing, [null] or
    otherwise falsy) makes line 43 render [latestState] instead: the stored
    snapshot is painted again, and when nothing is stored yet only the log
    line is added. *)
Theorem request_without_state_renders_latestState
        (floor : JSValue) (res : Response) (data msg st : JSValue)
        (text : string) (w : World) :
  res_ok res = true ->
  res_json res = inr data ->
  get data "message" = inr msg ->
  request_log_text floor msg = inr text ->
  get data "state" = inr st ->
  truthy st = false ->
  let out := requestFloor floor (Resolved res) w in
  out = try_catch (renderState (latestState w))
                  (fun err => log (JStr ("Request error: " ++ exn_toString err)))
                  (logged text w) /\
  (truthy (latestState w) = false -> out = (inr tt, logged text w)) /\
  (forall s, latestState w = ElevatorState_json s ->
             out = (inr tt, on_page (painted s) (logged text w))).
Proof.
  intros Hok Hjson Hmsg Htext Hst Hfalsy. cbn zeta.
  rewrite (requestFloor_success floor res data msg st text w Hok Hjson Hmsg Htext Hst).
  unfold js_or. rewrite Hfalsy.
  split; [reflexivity|]. split.
  - intros Hnone. unfold try_catch, renderState. rewrite Hnone. reflexivity.
  - intros s ->. unfold try_catch. rewrite renderState_snapshot. reflexivity.
Qed.

(** X13.  A successful reply without a message (missing or falsy) is logged
    as ["Requested floor "] followed by the floor that was asked for; the
    line is the first of the log when the rendering that follows returns
    normally. *)
Theorem request_without_message_logs_default
        (n : Z) (res : Response) (data msg st : JSValue) (w : World) :
  res_ok res = true ->
  res_json res = inr data ->
  get data "message" = inr msg ->
  truthy msg = false ->
  get data "state" = inr st ->
  let out := requestFloor (JNum n) (Resolved res) w in
  let text := "Requested floor " ++ number_toString n in
  out = try_catch (renderState (js_or st (latestState w)))
                  (fun err => log (JStr ("Request error: " ++ exn_toString err)))
                  (logged text w) /\
  (fst (renderState (js_or st (latestState w)) w) = inr tt ->
   hd_error (logEl (page (snd out))) = Some (log_line (clock w 0%nat) text)).
Proof.
  intros Hok Hjson Hmsg Hfalsy Hst. cbn zeta.
  assert (Htext : request_log_text (JNum n) msg
                  = inr ("Requested floor " ++ number_toString n)).
  { unfold request_log_text. rewrite Hfalsy. reflexivity. }
  rewrite (requestFloor_success (JNum n) res data msg st _ w Hok Hjson Hmsg Htext Hst).
  split; [reflexivity|].
  intros Hfine. set (w1 := logged _ w).
  rewrite (steady_renderState _ w w1) in Hfine.
  destruct (paints_renderState (js_or st (latestState w)) w1) as (_ & _ & Hlog & _).
  unfold try_catch.
  destruct (renderState (js_or st (latestState w)) w1) as [[e|[]] w2];
    cbn [fst snd] in *; [discriminate|].
  rewrite Hlog. apply logged_frame.
Qed.

(** ** Handlers one after another *)

(** X14.  A poll that succeeds and is answered the same way again changes
    nothing the second time: the same [latestState], the same page, no log
    line, no reading of the clock. *)
Theorem repeated_poll_changes_nothing (net : FetchResult) (data : JSValue) (w : World) :
  poll_data net = Some data ->
  fst (renderState data w) = inr tt ->
  fetchState net (snd (fetchState net w)) = fetchState net w.
Proof.
  intros Hd Hfine.
  assert (Hrun : forall w0, fst (renderState data w0) = inr tt ->
            fetchState net w0 =
            (inr tt, mkWorld data (page (snd (renderState data w0))) (clock w0))).
  { intros w0 H0. rewrite (fetchState_parsed net data w0 Hd).
    destruct (paints_renderState data w0) as (_ & _ & _ & Hdep).
    unfold try_catch. rewrite (Hdep data (clock w0)), H0. reflexivity. }
  rewrite (Hrun w Hfine). cbn [snd].
  set (w1 := mkWorld data (page (snd (renderState data w))) (clock w)).
  assert (Hfine1 : fst (renderState data w1) = inr tt)
    by (rewrite <- Hfine; apply steady_renderState).
  rewrite (Hrun w1 Hfine1). f_equal.
  apply world_eq; cbn [latestState page clock w1]; try reflexivity.
  destruct (paints_renderState data w1) as (_ & _ & Hlog & _).
  apply page_eq; [|exact Hlog].
  destruct (truthy data) eqn:Ht.
  - rewrite <- (render_view_determined data w w1 Ht Hfine). reflexivity.
  - assert (Hnoop : forall w0, renderState data w0 = (inr tt, w0))
      by (intros w0; unfold renderState; rewrite Ht; reflexivity).
    unfold w1. rewrite !Hnoop. reflexivity.
Qed.

(** X15.  The view shows the response that settled last, [latestState] the
    last poll.  When a poll delivers the snapshot [s_new] and a reply that
    carries an older snapshot [s_old] settles after it, the page shows
    [s_old] while [latestState] holds [s_new]; the next poll that delivers
    [s_new] shows it again. *)
Theorem stale_reply_overwrites_view_only
        (s_new s_old : ElevatorState) (m : string) (floor : JSValue) (w : World) :
  m <> "" ->
  let poll := Resolved (ok_response (ElevatorState_json s_new)) in
  let w1 := snd (fetchState poll w) in
  let w2 := snd (requestFloor floor (Resolved (reply_with m s_old)) w1) in
  let w3 := snd (fetchState poll w2) in
  view (page w1) = view (painted s_new (page w)) /\
  latestState w1 = ElevatorState_json s_new /\
  view (page w2) = view (painted s_old (page w)) /\
  latestState w2 = ElevatorState_json s_new /\
  view (page w3) = view (painted s_new (page w)) /\
  latestState w3 = ElevatorState_json s_new.
Proof.
  intros Hm. cbv zeta.
  assert (Hpoll : forall w0,
            fetchState (Resolved (ok_response (ElevatorState_json s_new))) w0 =
            (inr tt, mkWorld (ElevatorState_json s_new) (painted s_new (page w0)) (clock w0))).
  { intros w0.
    rewrite (fetchState_parsed (Resolved (ok_response (ElevatorState_json s_new)))
               (ElevatorState_json s_new) w0 eq_refl).
    unfold try_catch. rewrite renderState_snapshot. reflexivity. }
  assert (Htruthy : truthy (JStr m) = true).
  { cbn [truthy]. destruct (String.eqb_spec m ""); [contradiction | reflexivity]. }
  assert (Hreply : forall w0,
            requestFloor floor (Resolved (reply_with m s_old)) w0 =
            (inr tt, on_page (painted s_old) (logged m w0))).
  { intros w0.
    rewrite (requestFloor_success floor (reply_with m s_old)
               (JObj [("message", JStr m); ("state", ElevatorState_json s_old)])
               (JStr m) (ElevatorState_json s_old) m w0
               eq_refl eq_refl eq_refl).
    - unfold try_catch, js_or. cbn [truthy ElevatorState_json].
      fold (ElevatorState_json s_old). rewrite renderState_snapshot. reflexivity.
    - unfold request_log_text. rewrite Htruthy. reflexivity.
    - reflexivity. }
  repeat (rewrite Hpoll || rewrite Hreply). cbn [snd].
  repeat split; reflexivity.
Qed.

End Edges.

(** ** One floor button *)

Section OneButton.
Context `{Engine}.

(** X16.  The callback of lines 67-78, where it returns normally, appends
    one button after those already there; the button submits [info.floor]
    on a click, and it is disabled exactly when [info.state] is one of the
    strings ['Queued'], ['Moving'], ['Current'].  A floor whose state is
    missing, or any other value, gets an enabled button without a state
    class. *)
Theorem render_floor_disables_known_states (info : JSValue) (w : World) :
  fst (render_floor info w) = inr tt ->
  exists (fl st : JSValue) (b : Element),
    get info "floor" = inr fl /\
    get info "state" = inr st /\
    floorsEl (page (snd (render_floor info w))) = (floorsEl (page w) ++ [b])%list /\
    onclick b = Some fl /\
    disabled b = includes disableStates st /\
    (includes disableStates st = false -> classList b = ["floor"]).
Proof.
  rewrite render_floor_run. unfold button_of.
  destruct (get info "floor") as [e|fl]; [discriminate|].
  destruct (text_of fl) as [e|t]; [discriminate|].
  destruct (get info "state") as [e|st]; [discriminate|].
  intros _. exists fl, st, (floor_button fl t st).
  split; [reflexivity|]. split; [reflexivity|]. split; [reflexivity|].
  unfold floor_button, includes, disableStates. cbn [existsb].
  destruct (strict_eq_str st "Current") eqn:Hc,
           (strict_eq_str st "Moving") eqn:Hm,
           (strict_eq_str st "Queued") eqn:Hq;
    cbn -[String.eqb]; repeat split; try reflexivity; try discriminate.
Qed.

End OneButton.

(** * The further properties at work on the scenarios *)

Lemma renderState_rebuilds_view_witness :
  truthy (ElevatorState_json queued_floor_4) = true /\
  fst (@renderState v8 (ElevatorState_json queued_floor_4) startup) = inr tt /\
  floorsEl (page (snd (@renderState v8 (ElevatorState_json queued_floor_4) startup))) =
  floorsEl (page (snd (@renderState v8 (ElevatorState_json queued_floor_4) polled))) /\
  queueChipsEl (page (snd (@renderState v8 (ElevatorState_json queued_floor_4) startup))) =
  queueChipsEl (page (snd (@renderState v8 (ElevatorState_json queued_floor_4) polled))).
Proof.
  split; [reflexivity|]. split; [reflexivity|].
  destruct (@renderState_rebuilds_view v8 (ElevatorState_json queued_floor_4)
              startup polled eq_refl eq_refl) as (_ & Hfloors & Hchips & _).
  split; [exact Hfloors | exact Hchips].
Defined.

Lemma renderState_without_queue_witness :
  truthy no_queue = true /\
  @get v8 no_queue "queue" = inr JUndefined /\
  (exists e, fst (@renderState v8 no_queue polled) = inl e) /\
  queueChipsEl (page (snd (@renderState v8 no_queue polled))) = queueChipsEl (page polled) /\
  floorsEl (page (snd (@renderState v8 no_queue polled))) = floorsEl (page polled).
Proof.
  split; [reflexivity|]. split; [reflexivity|].
  destruct (@renderState_without_queue v8 no_queue JUndefined polled
              eq_refl eq_refl eq_refl) as (Hthrows & _ & _ & Hchips & Hfloors).
  split; [exact Hthrows|]. split; [exact Hchips | exact Hfloors].
Defined.

Lemma handlers_keep_log_within_bound_witness :
  log_within_bound startup /\
  log_within_bound
    (snd (@session v8 [PollSettled (Resolved db_down);
                       RequestSettled (JNum 4) (Resolved (ok_response queued_reply))]
            startup)).
Proof.
  assert (Hstart : log_within_bound startup) by (split; [reflexivity | cbn; lia]).
  split; [exact Hstart|].
  destruct (@handlers_keep_log_within_bound v8) as (_ & _ & Hsession).
  apply Hsession. exact Hstart.
Defined.

Lemma poll_with_falsy_body_clears_latestState_witness :
  poll_data (Resolved (ok_response JNull)) = Some JNull /\
  truthy JNull = false /\
  @fetchState v8 (Resolved (ok_response JNull)) polled =
  (inr tt, mkWorld JNull (page polled) (clock polled)).
Proof.
  split; [reflexivity|]. split; [reflexivity|].
  apply (@poll_with_falsy_body_clears_latestState v8 (Resolved (ok_response JNull)) JNull
           polled eq_refl eq_refl).
Defined.

Lemma request_with_null_body_is_logged_as_error_witness :
  res_ok (ok_response JNull) = true /\
  map textContent
      (logEl (page (snd (@requestFloor v8 (JNum 4) (Resolved (ok_response JNull)) polled)))) =
  ["[t0] Request error: TypeError: Cannot read properties of null (reading 'message')"] /\
  floorsEl (page (snd (@requestFloor v8 (JNum 4) (Resolved (ok_response JNull)) polled))) =
  floorsEl (page polled).
Proof.
  split; [reflexivity|].
  rewrite (@request_with_null_body_is_logged_as_error v8 (JNum 4) (ok_response JNull) JNull
             polled eq_refl eq_refl eq_refl).
  split; vm_compute; reflexivity.
Defined.

Lemma request_without_state_renders_latestState_witness :
  res_ok bare_reply = true /\
  @get v8 (JObj []) "state" = inr JUndefined /\
  latestState polled = ElevatorState_json idle_at_3 /\
  @requestFloor v8 (JNum 4) (Resolved bare_reply) polled =
  (inr tt, on_page (painted idle_at_3) (logged "Requested floor 4" polled)) /\
  @requestFloor v8 (JNum 4) (Resolved bare_reply) startup =
  (inr tt, logged "Requested floor 4" startup).
Proof.
  split; [reflexivity|]. split; [reflexivity|]. split; [reflexivity|].
  destruct (@request_without_state_renders_latestState v8 (JNum 4) bare_reply (JObj [])
              JUndefined JUndefined "Requested floor 4" polled
              eq_refl eq_refl eq_refl eq_refl eq_refl eq_refl) as (_ & _ & Hstored).
  destruct (@request_without_state_renders_latestState v8 (JNum 4) bare_reply (JObj [])
              JUndefined JUndefined "Requested floor 4" startup
              eq_refl eq_refl eq_refl eq_refl eq_refl eq_refl) as (_ & Hnone & _).
  split; [exact (Hstored idle_at_3 eq_refl) | exact (Hnone eq_refl)].
Defined.

Lemma request_without_message_logs_default_witness :
  res_ok bare_reply = true /\
  @get v8 (JObj []) "message" = inr JUndefined /\
  option_map textContent
    (hd_error (logEl (page (snd (@requestFloor v8 (JNum 4) (Resolved bare_reply) polled))))) =
  Some "[t0] Requested floor 4".
Proof.
  split; [reflexivity|]. split; [reflexivity|].
  destruct (@request_without_message_logs_default v8 4 bare_reply (JObj [])
              JUndefined JUndefined polled eq_refl eq_refl eq_refl eq_refl eq_refl)
    as (_ & Hhd).
  rewrite (Hhd eq_refl). reflexivity.
Defined.

Lemma repeated_poll_changes_nothing_witness :
  poll_data (Resolved (ok_response (ElevatorState_json queued_floor_4)))
    = Some (ElevatorState_json queued_floor_4) /\
  fst (@renderState v8 (ElevatorState_json queued_floor_4) startup) = inr tt /\
  @fetchState v8 (Resolved (ok_response (ElevatorState_json queued_floor_4)))
    (snd (@fetchState v8 (Resolved (ok_response (ElevatorState_json queued_floor_4))) startup))
  = @fetchState v8 (Resolved (ok_response (ElevatorState_json queued_floor_4))) startup.
Proof.
  split; [reflexivity|]. split; [reflexivity|].
  apply (@repeated_poll_changes_nothing v8
           (Resolved (ok_response (ElevatorState_json queued_floor_4)))
           (ElevatorState_json queued_floor_4) startup eq_refl eq_refl).
Defined.

Lemma stale_reply_overwrites_view_only_witness :
  "Queued floor 4" <> "" /\
  let poll := Resolved (ok_response (ElevatorState_json queued_floor_4)) in
  let w1 := snd (@fetchState v8 poll startup) in
  let w2 := snd (@requestFloor v8 (JNum 4)
                   (Resolved (reply_with "Queued floor 4" idle_at_3)) w1) in
  map textContent (queueChipsEl (page w1)) = ["Queued: 4"] /\
  map textContent (queueChipsEl (page w2)) = [] /\
  latestState w2 = ElevatorState_json queued_floor_4.
Proof.
  assert (Hm : "Queued floor 4" <> "") by discriminate.
  split; [exact Hm|]. cbv zeta.
  destruct (@stale_reply_overwrites_view_only v8 queued_floor_4 idle_at_3 "Queued floor 4"
              (JNum 4) startup Hm) as (Hv1 & _ & Hv2 & Hls & _).
  split; [|split; [|exact Hls]].
  - change (queueChipsEl (page ?w)) with (queueChipsEl (view (page w))).
    rewrite Hv1. reflexivity.
  - change (queueChipsEl (page ?w)) with (queueChipsEl (view (page w))).
    rewrite Hv2. reflexivity.
Defined.

Lemma render_floor_disables_known_states_witness :
  fst (@render_floor v8 (JObj [("floor", JNum 7); ("state", JStr "current")]) polled) = inr tt /\
  exists b : Element,
    floorsEl (page (snd (@render_floor v8 (JObj [("floor", JNum 7); ("state", JStr "current")])
                           polled))) = (floorsEl (page polled) ++ [b])%list /\
    disabled b = false /\ classList b = ["floor"].
Proof.
  split; [reflexivity|].
  destruct (@render_floor_disables_known_states v8
              (JObj [("floor", JNum 7); ("state", JStr "current")]) polled eq_refl)
    as (fl & st & b & _ & Hst & Hb & _ & Hdis & Hcls).
  injection Hst as <-.
  exists b. split; [exact Hb|]. split; [exact Hdis | exact (Hcls eq_refl)].
Defined.
